(** * ChainTrace IoT module: sensor-data ingestion and quality scoring

    A shallow embedding of the two TypeScript classes that make up the
    ingestion pipeline of the IoT module,

    - [SensorDataCollector] (sensors/SensorDataCollector.ts): validation of
      incoming readings and per-sensor threshold alerts;
    - [DataProcessor] (processors/DataProcessor.ts): the batching queue,
      per-reading derivation, quality scoring and per-batch alerts;

    together with the event wiring of [ChainTraceIoTModule] (index.ts) and
    the declarations of types/sensor.ts.

    JavaScript numbers are IEEE-754 binary64 values and are modelled by
    Rocq's primitive floats.  Instants (the time values of [Date]) are
    integral numbers of milliseconds and are modelled by [Z]; an invalid
    date, whose time value is NaN, is [None]. *)

From Stdlib Require Import ZArith Floats.
From stdpp Require Import gmap strings list pretty.

Set Warnings "-register-all,-inexact-float".

Local Open Scope Z_scope.
Local Open Scope string_scope.

(** ** A fragment of the JavaScript runtime *)

Module Js.

(** Values that can flow through the fields the code inspects dynamically
    ([typeof], truthiness, [=== null]).  Objects are plain objects: their own
    properties in insertion order. *)
Inductive JsValue : Type :=
| VUndefined
| VNull
| VBool (b : bool)
| VNum (x : float)
| VStr (s : string)
| VObj (props : list (string * JsValue)).

Definition JsObject : Type := list (string * JsValue).

(** Built-ins of the host that the code calls and that are not part of the
    repository. *)
Record Host : Type := {
  (** [new Date(s).getTime()]; [None] is NaN (an invalid date) *)
  Date_getTime : string -> option Z;
  (** [Math.log] *)
  Math_log : float -> float;
  (** [Number.prototype.toString], as used by template literals *)
  Number_toString : float -> string;
  (** the numeric value of a string, as used by implicit coercion *)
  String_toNumber : string -> float
}.

(** [typeof v] *)
Definition typeof (v : JsValue) : string :=
  match v with
  | VUndefined => "undefined"
  | VNull => "object"
  | VBool _ => "boolean"
  | VNum _ => "number"
  | VStr _ => "string"
  | VObj _ => "object"
  end.

(** ToBoolean: [undefined], [null], [false], [0], [-0], [NaN] and the empty
    string are falsy. *)
Definition truthy (v : JsValue) : bool :=
  match v with
  | VUndefined | VNull => false
  | VBool b => b
  | VNum x => negb (PrimFloat.eqb x 0 || PrimFloat.is_nan x)
  | VStr s => negb (String.eqb s "")
  | VObj _ => true
  end.

(** A field declared [string] may still be absent ([undefined]) at run time. *)
Definition ofString (o : option string) : JsValue :=
  match o with
  | Some s => VStr s
  | None => VUndefined
  end.

(** Own-property lookup [o[k]] (the keys of an object are distinct). *)
Fixpoint getProp (k : string) (o : JsObject) : JsValue :=
  match o with
  | [] => VUndefined
  | (k', v) :: rest => if String.eqb k k' then v else getProp k rest
  end.

(** [v.k] where [v] is known not to be [null] or [undefined]: primitives have
    none of the properties the code asks for. *)
Definition member (v : JsValue) (k : string) : JsValue :=
  match v with
  | VObj o => getProp k o
  | _ => VUndefined
  end.

(** ToNumber *)
Definition ToNumber (h : Host) (v : JsValue) : float :=
  match v with
  | VUndefined => nan
  | VNull => 0%float
  | VBool b => if b then 1%float else 0%float
  | VNum x => x
  | VStr s => String_toNumber h s
  | VObj _ => nan
  end.

(** ToString *)
Definition ToString (h : Host) (v : JsValue) : string :=
  match v with
  | VUndefined => "undefined"
  | VNull => "null"
  | VBool b => if b then "true" else "false"
  | VNum x => Number_toString h x
  | VStr s => s
  | VObj _ => "[object Object]"
  end.

(** [a + b]: concatenation as soon as one operand is (or converts to) a
    string, numeric addition otherwise. *)
Definition isStringy (v : JsValue) : bool :=
  match v with
  | VStr _ | VObj _ => true
  | _ => false
  end.

Definition add (h : Host) (a b : JsValue) : JsValue :=
  if isStringy a || isStringy b
  then VStr (ToString h a ++ ToString h b)
  else VNum (ToNumber h a + ToNumber h b)%float.

(** [a * b] and [a / b] *)
Definition mul (h : Host) (a b : JsValue) : JsValue :=
  VNum (ToNumber h a * ToNumber h b)%float.

Definition div (h : Host) (a b : JsValue) : JsValue :=
  VNum (ToNumber h a / ToNumber h b)%float.

(** [v > c] and [v < c] against a number [c]; any comparison with NaN is
    false. *)
Definition gt (h : Host) (v : JsValue) (c : float) : bool :=
  PrimFloat.ltb c (ToNumber h v).

Definition lt (h : Host) (v : JsValue) (c : float) : bool :=
  PrimFloat.ltb (ToNumber h v) c.

(** The same comparisons where the code has already established
    [typeof v === 'number'] (the guard short-circuits otherwise). *)
Definition numLt (v : JsValue) (c : float) : bool :=
  match v with
  | VNum x => PrimFloat.ltb x c
  | _ => false
  end.

Definition numGt (v : JsValue) (c : float) : bool :=
  match v with
  | VNum x => PrimFloat.ltb c x
  | _ => false
  end.

(** [String.prototype.toUpperCase] / [toLowerCase] on the ASCII letters. *)
Definition upperAscii (c : Ascii.ascii) : Ascii.ascii :=
  let n := Ascii.nat_of_ascii c in
  if (Nat.leb 97 n && Nat.leb n 122)%bool then Ascii.ascii_of_nat (n - 32) else c.

Definition lowerAscii (c : Ascii.ascii) : Ascii.ascii :=
  let n := Ascii.nat_of_ascii c in
  if (Nat.leb 65 n && Nat.leb n 90)%bool then Ascii.ascii_of_nat (n + 32) else c.

Fixpoint mapString (f : Ascii.ascii -> Ascii.ascii) (s : string) : string :=
  match s with
  | EmptyString => EmptyString
  | String c rest => String (f c) (mapString f rest)
  end.

Definition toUpperCase : string -> string := mapString upperAscii.
Definition toLowerCase : string -> string := mapString lowerAscii.

(** Exceptions: [throw new Error(msg)] and the [TypeError] raised by a
    property access on [undefined]. *)
Inductive Exn : Type :=
| Error (msg : string)
| TypeError (msg : string).

Definition Result (A : Type) : Type := Exn + A.

Definition ok {A : Type} (a : A) : Result A := inr a.
Definition throw {A : Type} (e : Exn) : Result A := inl e.

Definition bind {A B : Type} (m : Result A) (k : A -> Result B) : Result B :=
  match m with
  | inl e => inl e
  | inr a => k a
  end.

End Js.

Import Js.

Notation "x <-! m ; k" := (Js.bind m (fun x => k))
  (at level 100, m at next level, right associativity).
Notation "m ;;! k" := (Js.bind m (fun _ => k))
  (at level 100, right associativity).

(** ** The data model (types/sensor.ts) *)

Module Sensor.

(** [location?: { latitude; longitude; accuracy? }] *)
Record Location : Type := {
  latitude : float;
  longitude : float;
  accuracy : option float
}.

(** [interface SensorReading].  The three fields declared [string] are
    options, [None] standing for a field that is absent at run time (the
    validators test for it); [value] is whatever the payload carried. *)
Record SensorReading : Type := {
  sensorId : option string;
  sensorType : option string;
  value : JsValue;
  unit' : option string;
  timestamp : option string;
  location : option Location;
  metadata : option JsObject
}.

(** [transformedData], as built by [applyTransformations]; the time value is
    [None] when the timestamp does not parse. *)
Record TransformedData : Type := {
  originalValue : JsValue;
  normalizedValue : JsValue;
  transformedTimestamp : option Z;
  transformedSensorId : string;
  transformedSensorType : string;
  smoothedValue : option JsValue
}.

(** [interface ProcessedData extends SensorReading].  [processedAt] holds the
    instant whose ISO-8601 rendering the code stores. *)
Record ProcessedData : Type := {
  reading : SensorReading;
  derivedMetrics : JsObject;
  transformedData : TransformedData;
  qualityScore : Z;
  processedAt : Z;
  processingVersion : string
}.

Inductive AlertType : Type :=
| QUALITY_LOW
| ANOMALY_DETECTED
| THRESHOLD_EXCEEDED
| SENSOR_OFFLINE.

Inductive Severity : Type :=
| low
| medium
| high
| critical.

(** [interface DataAlert] *)
Record DataAlert : Type := {
  alertSensorId : option string;
  alertType : AlertType;
  severity : Severity;
  message : string;
  alertTimestamp : option string;
  data : option ProcessedData
}.

(** [{ min: number; max: number }] *)
Record Threshold : Type := {
  thresholdMin : float;
  thresholdMax : float
}.

Inductive Status : Type :=
| online
| offline.

(** [interface SensorConfig]; [thresholds] is keyed by sensor type. *)
Record SensorConfig : Type := {
  configId : string;
  configType : string;
  configLocation : float * float;
  thresholds : option (gmap string Threshold);
  configMetadata : option JsObject;
  status : Status;
  lastSeen : option string
}.

(** The reading [r] with another [timestamp]. *)
Definition withTimestamp (ts : option string) (r : SensorReading) : SensorReading :=
  {| sensorId := sensorId r;
     sensorType := sensorType r;
     value := value r;
     unit' := unit' r;
     timestamp := ts;
     location := location r;
     metadata := metadata r |}.

(** The reading [r] with another [value]. *)
Definition withValue (v : JsValue) (r : SensorReading) : SensorReading :=
  {| sensorId := sensorId r;
     sensorType := sensorType r;
     value := v;
     unit' := unit' r;
     timestamp := timestamp r;
     location := location r;
     metadata := metadata r |}.

End Sensor.

Import Sensor.

(** ** processors/DataProcessor.ts *)

Module DataProcessor.

(** The guard [!s || s.length === 0] on a field declared [string]. *)
Definition missing (s : option string) : bool :=
  negb (truthy (ofString s)) || Nat.eqb (String.length (default "" s)) 0.

(** [switch (reading.sensorType)]: strict equality with a case label. *)
Definition isType (r : SensorReading) (label : string) : bool :=
  match sensorType r with
  | Some s => String.eqb s label
  | None => false
  end.

Definition isNumber (v : JsValue) : bool := String.eqb (typeof v) "number".
Definition isObject (v : JsValue) : bool := String.eqb (typeof v) "object".

(** [validateReading]: returns normally or throws [Error(reason)]. *)
Definition validateReading (r : SensorReading) : Result unit :=
  if missing (sensorId r) then throw (Error "Invalid sensor ID")
  else if missing (sensorType r) then throw (Error "Invalid sensor type")
  else if match value r with VNull | VUndefined => true | _ => false end
       then throw (Error "Invalid sensor value")
  else if negb (truthy (ofString (timestamp r))) then throw (Error "Invalid timestamp")
  else if isType r "temperature" then
    if negb (isNumber (value r)) || numLt (value r) (-50) || numGt (value r) 150
    then throw (Error "Invalid temperature value") else ok tt
  else if isType r "humidity" then
    if negb (isNumber (value r)) || numLt (value r) 0 || numGt (value r) 100
    then throw (Error "Invalid humidity value") else ok tt
  else if isType r "pressure" then
    if negb (isNumber (value r)) || numLt (value r) 0 || numGt (value r) 2000
    then throw (Error "Invalid pressure value") else ok tt
  else if isType r "location" then
    if negb (isObject (value r))
       || negb (isNumber (member (value r) "latitude"))
       || negb (isNumber (member (value r) "longitude"))
    then throw (Error "Invalid location value") else ok tt
  else ok tt.

Section WithHost.

Context (h : Host).

(** [calculateDewPoint(humidity, temperature)] *)
Definition calculateDewPoint (humidity : JsValue) (temperature : float) : float :=
  let a := 17.27%float in
  let b := 237.7%float in
  let alpha := ((a * temperature) / (b + temperature)
                + Math_log h (ToNumber h (div h humidity (VNum 100))))%float in
  ((b * alpha) / (a - alpha))%float.

(** [reading.value.k]: a [TypeError] when the value is [null] or
    [undefined]. *)
Definition valueMember (r : SensorReading) (k : string) : Result JsValue :=
  match value r with
  | VNull | VUndefined =>
      throw (TypeError ("Cannot read properties of " ++ ToString h (value r)))
  | v => ok (member v k)
  end.

(** [calculateDerivedMetrics]: the [metrics] object, property by property. *)
Definition calculateDerivedMetrics (r : SensorReading) : Result JsObject :=
  if isType r "temperature" then
    ok [ ("celsius", value r);
         ("fahrenheit", add h (div h (mul h (value r) (VNum 9)) (VNum 5)) (VNum 32));
         ("kelvin", add h (value r) (VNum 273.15)) ]
  else if isType r "humidity" then
    ok [ ("relativeHumidity", value r);
         ("dewPoint", VNum (calculateDewPoint (value r) 20)) ]
  else if isType r "pressure" then
    ok [ ("pascal", value r);
         ("bar", div h (value r) (VNum 100000));
         ("atmosphere", div h (value r) (VNum 101325)) ]
  else if isType r "location" then
    lat <-! valueMember r "latitude";
    lon <-! valueMember r "longitude";
    acc <-! valueMember r "accuracy";
    ok [ ("latitude", lat);
         ("longitude", lon);
         ("accuracy", if truthy acc then acc else VStr "unknown") ]
  else ok [].

(** [normalizeValue] *)
Definition normalizeValue (r : SensorReading) : JsValue :=
  if isType r "temperature" then div h (add h (value r) (VNum 50)) (VNum 200)
  else if isType r "humidity" then div h (value r) (VNum 100)
  else if isType r "pressure" then div h (value r) (VNum 2000)
  else if isNumber (value r) then value r else VNum 0.

(** [shouldApplySmoothing] and [applySmoothing] *)
Definition shouldApplySmoothing (r : SensorReading) : bool :=
  isType r "temperature" || isType r "humidity".

Definition applySmoothing (r : SensorReading) : JsValue := value r.

(** [new Date(reading.timestamp).getTime()] *)
Definition timeOf (r : SensorReading) : option Z :=
  match timestamp r with
  | Some s => Date_getTime h s
  | None => None
  end.

(** [s.toUpperCase()] / [s.toLowerCase()] on a possibly absent string. *)
Definition callOn (f : string -> string) (name : string) (s : option string)
  : Result string :=
  match s with
  | Some x => ok (f x)
  | None => throw (TypeError ("Cannot read properties of undefined (reading '"
                                ++ name ++ "')"))
  end.

(** [applyTransformations] *)
Definition applyTransformations (r : SensorReading) : Result TransformedData :=
  sid <-! callOn toUpperCase "toUpperCase" (sensorId r);
  sty <-! callOn toLowerCase "toLowerCase" (sensorType r);
  ok {| originalValue := value r;
        normalizedValue := normalizeValue r;
        transformedTimestamp := timeOf r;
        transformedSensorId := sid;
        transformedSensorType := sty;
        smoothedValue :=
          if shouldApplySmoothing r then Some (applySmoothing r) else None |}.

(** [isValueReasonable]: "This would implement domain-specific
    reasonableness checks". *)
Definition isValueReasonable (r : SensorReading) : bool := true.

(** [!reading.metadata || Object.keys(reading.metadata).length === 0] *)
Definition metadataEmpty (r : SensorReading) : bool :=
  match metadata r with
  | None => true
  | Some m => Nat.eqb (length m) 0
  end.

(** [Date.now() - new Date(reading.timestamp).getTime() > 300000]; the
    difference is NaN, and the test false, when the timestamp does not
    parse. *)
Definition stale (now : Z) (r : SensorReading) : bool :=
  match timeOf r with
  | Some t => (300000 <? now - t)%Z
  | None => false
  end.

(** [calculateQualityScore], evaluated at the instant [now]. *)
Definition calculateQualityScore (now : Z) (r : SensorReading) : Z :=
  let score := 100 in
  let score := if stale now r then score - 20 else score in
  let score := if isValueReasonable r then score - 10 else score in
  let score := if metadataEmpty r then score - 5 else score in
  Z.max 0 score.

(** [processSensorReading]: the body of the [try]; the [catch] logs and
    rethrows, so the promise is rejected with the same error.  The method
    runs without interruption; [now] is what the clock shows meanwhile, both
    to [calculateQualityScore] and for [processedAt]. *)
Definition processSensorReading (now : Z) (r : SensorReading) : Result ProcessedData :=
  validateReading r ;;!
  derived <-! calculateDerivedMetrics r;
  transformed <-! applyTransformations r;
  let score := calculateQualityScore now r in
  ok {| reading := r;
        derivedMetrics := derived;
        transformedData := transformed;
        qualityScore := score;
        processedAt := now;
        processingVersion := "1.0.0" |}.

End WithHost.

(** [isAnomaly]: "This would implement anomaly detection algorithms". *)
Definition isAnomaly (d : ProcessedData) : bool := false.

Definition qualityLowAlert (d : ProcessedData) : DataAlert :=
  {| alertSensorId := sensorId (reading d);
     alertType := QUALITY_LOW;
     severity := medium;
     message := "Low quality score: " ++ pretty (qualityScore d);
     alertTimestamp := timestamp (reading d);
     data := Some d |}.

Definition anomalyAlert (d : ProcessedData) : DataAlert :=
  {| alertSensorId := sensorId (reading d);
     alertType := ANOMALY_DETECTED;
     severity := high;
     message := "Anomalous reading detected";
     alertTimestamp := timestamp (reading d);
     data := Some d |}.

(** [checkForAlerts]: the alerts pushed for each element, in order. *)
Fixpoint checkForAlerts (processedData : list ProcessedData) : list DataAlert :=
  match processedData with
  | [] => []
  | d :: rest =>
      (if (qualityScore d <? 70)%Z then [qualityLowAlert d] else [])
      ++ (if isAnomaly d then [anomalyAlert d] else [])
      ++ checkForAlerts rest
  end.

(** *** The queue and the asynchronous flush

    [processQueue] is an [async] method that nobody awaits.  It runs
    synchronously up to [await Promise.all(...)]: the guard, the flag, the
    [splice], and the mapping of [processSensorReading] over the batch (the
    mapped function contains no [await], so every promise is already settled
    when [map] returns).  The rest of the method runs later, as a microtask.
    The state below therefore holds, besides the fields of the class, the
    suspended continuation and what the object has logged and emitted. *)

Inductive Output : Type :=
| LogInfo (msg : string)
| LogWarn (msg : string)
| LogError (msg : string) (err : Exn)
| EmitDataProcessed (batch : list ProcessedData)
| EmitAlertGenerated (alerts : list DataAlert).

Record State : Type := {
  processingQueue : list SensorReading;
  isProcessing : bool;
  batchSize : nat;
  processingInterval : Z;
  (** [intervalId !== null] *)
  intervalId : bool;
  (** the promises a suspended [processQueue] is awaiting *)
  awaiting : option (list (Result ProcessedData));
  (** log entries and emitted events, oldest first *)
  outputs : list Output
}.

(** [new DataProcessor()] *)
Definition init : State :=
  {| processingQueue := [];
     isProcessing := false;
     batchSize := 100;
     processingInterval := 5000;
     intervalId := true;
     awaiting := None;
     outputs := [] |}.

(** [Promise.all]: the values in order, or the first rejection. *)
Fixpoint promiseAll {A : Type} (ps : list (Result A)) : Result (list A) :=
  match ps with
  | [] => ok []
  | p :: rest =>
      match p, promiseAll rest with
      | inl e, _ => inl e
      | inr _, inl e => inl e
      | inr a, inr l => ok (a :: l)
      end
  end.

(** What the [catch] of [processSensorReading] logs for each promise. *)
Definition rejectionLog (p : Result ProcessedData) : list Output :=
  match p with
  | inl e => [LogError "Error processing sensor reading:" e]
  | inr _ => []
  end.

Section Flush.

Context (h : Host).

(** [processQueue], up to the [await]; [now] is what the clock shows while
    the batch is mapped. *)
Definition processQueue (now : Z) (s : State) : State :=
  if isProcessing s || Nat.eqb (length (processingQueue s)) 0 then s
  else
    let batch := take (batchSize s) (processingQueue s) in
    let promises := map (processSensorReading h now) batch in
    {| processingQueue := drop (batchSize s) (processingQueue s);
       isProcessing := true;
       batchSize := batchSize s;
       processingInterval := processingInterval s;
       intervalId := intervalId s;
       awaiting := Some promises;
       outputs :=
         outputs s
         ++ [LogInfo ("Processing batch of " ++ pretty (length batch)
                        ++ " sensor readings")]
         ++ concat (map rejectionLog promises) |}.

(** [processQueue], from the [await] on: the [try] continues with the
    fulfilled batch or the [catch] runs with the first rejection; [finally]
    clears the flag.  The listeners [handleProcessedData] and [handleAlert]
    log when the events are emitted. *)
Definition resumed (promises : list (Result ProcessedData)) : list Output :=
  match promiseAll promises with
  | inr processedBatch =>
      let alerts := checkForAlerts processedBatch in
      [EmitDataProcessed processedBatch;
       LogInfo ("Processed " ++ pretty (length processedBatch) ++ " sensor readings")]
      ++ (if Nat.ltb 0 (length alerts)
          then [EmitAlertGenerated alerts;
                LogWarn ("Generated " ++ pretty (length alerts) ++ " alerts")]
          else [])
  | inl e => [LogError "Error processing sensor readings batch:" e]
  end.

Definition resume (s : State) : State :=
  match awaiting s with
  | None => s
  | Some promises =>
      {| processingQueue := processingQueue s;
         isProcessing := false;
         batchSize := batchSize s;
         processingInterval := processingInterval s;
         intervalId := intervalId s;
         awaiting := None;
         outputs := outputs s ++ resumed promises |}
  end.

(** [this.processingQueue.push(reading)] *)
Definition push (r : SensorReading) (s : State) : State :=
  {| processingQueue := processingQueue s ++ [r];
     isProcessing := isProcessing s;
     batchSize := batchSize s;
     processingInterval := processingInterval s;
     intervalId := intervalId s;
     awaiting := awaiting s;
     outputs := outputs s |}.

(** [addToQueue] *)
Definition addToQueue (now : Z) (r : SensorReading) (s : State) : State :=
  let s := push r s in
  if Nat.leb (batchSize s) (length (processingQueue s))
  then processQueue now s
  else s.

(** The callback of [setInterval] installed by [startProcessing]. *)
Definition timer (now : Z) (s : State) : State :=
  if intervalId s
  then if Nat.ltb 0 (length (processingQueue s)) && negb (isProcessing s)
       then processQueue now s
       else s
  else s.

(** [stopProcessing] *)
Definition stopProcessing (s : State) : State :=
  {| processingQueue := processingQueue s;
     isProcessing := isProcessing s;
     batchSize := batchSize s;
     processingInterval := processingInterval s;
     intervalId := false;
     awaiting := awaiting s;
     outputs := outputs s |}.

(** What can happen to the object: a call of [addToQueue], a tick of the
    timer, the microtask that resumes a suspended flush. *)
Inductive Event : Type :=
| AddToQueue (r : SensorReading)
| TimerFired
| Resumed.

Definition step (s : State) (e : Z * Event) : State :=
  match e with
  | (now, AddToQueue r) => addToQueue now r s
  | (now, TimerFired) => timer now s
  | (_, Resumed) => resume s
  end.

Definition run (es : list (Z * Event)) (s : State) : State :=
  fold_left step es s.

End Flush.

(** A processor whose [batchSize] is [b]. *)
Definition withBatchSize (b : nat) (s : State) : State :=
  {| processingQueue := processingQueue s;
     isProcessing := isProcessing s;
     batchSize := b;
     processingInterval := processingInterval s;
     intervalId := intervalId s;
     awaiting := awaiting s;
     outputs := outputs s |}.

(** Emitted events, as opposed to log entries. *)
Definition isEmit (o : Output) : bool :=
  match o with
  | EmitDataProcessed _ | EmitAlertGenerated _ => true
  | _ => false
  end.

(** The flushes that have started, read off the log. *)
Definition isFlushStart (o : Output) : bool :=
  match o with
  | LogInfo msg => String.prefix "Processing batch of " msg
  | _ => false
  end.

Definition flushCount (s : State) : nat :=
  length (List.filter isFlushStart (outputs s)).

(** The flushes that have come to their end, read off the events and the
    log: the batch was emitted, or the [catch] of [processQueue] logged its
    error. *)
Definition isFlushEnd (o : Output) : bool :=
  match o with
  | EmitDataProcessed _ => true
  | LogError msg _ => String.eqb msg "Error processing sensor readings batch:"
  | _ => false
  end.

Definition endCount (s : State) : nat :=
  length (List.filter isFlushEnd (outputs s)).

Definition isAdd (e : Z * Event) : bool :=
  match e with
  | (_, AddToQueue _) => true
  | _ => false
  end.

Definition isTimer (e : Z * Event) : bool :=
  match e with
  | (_, TimerFired) => true
  | _ => false
  end.

Definition added (es : list (Z * Event)) : list SensorReading :=
  omap (fun e => match e with (_, AddToQueue r) => Some r | _ => None end) es.

(** The flag is set exactly while a flush is suspended. *)
Definition flagTracksFlush (s : State) : Prop :=
  isProcessing s = true <-> is_Some (awaiting s).

(** [getStats] *)
Record Stats : Type := {
  queueLength : nat;
  statsIsProcessing : bool;
  statsBatchSize : nat;
  statsProcessingInterval : Z
}.

Definition getStats (s : State) : Stats :=
  {| queueLength := length (processingQueue s);
     statsIsProcessing := isProcessing s;
     statsBatchSize := batchSize s;
     statsProcessingInterval := processingInterval s |}.


End DataProcessor.

(** ** sensors/SensorDataCollector.ts *)

Module SensorDataCollector.

(** [!reading[field]] for the four required fields, in the order of
    [requiredFields]. *)
Definition requiredFields (r : SensorReading) : list JsValue :=
  [ofString (sensorId r); ofString (sensorType r); value r; ofString (timestamp r)].

(** [v >= c] and [v <= c] behind a [typeof v === 'number' &&] guard. *)
Definition numGe (v : JsValue) (c : float) : bool :=
  match v with
  | VNum x => PrimFloat.leb c x
  | _ => false
  end.

Definition numLe (v : JsValue) (c : float) : bool :=
  match v with
  | VNum x => PrimFloat.leb x c
  | _ => false
  end.

Definition isType := DataProcessor.isType.
Definition isNumber := DataProcessor.isNumber.
Definition isObject := DataProcessor.isObject.

(** [validateSensorReading] *)
Definition validateSensorReading (r : SensorReading) : bool :=
  if negb (forallb truthy (requiredFields r)) then false
  else if isType r "temperature" then
    isNumber (value r) && numGe (value r) (-50) && numLe (value r) 150
  else if isType r "humidity" then
    isNumber (value r) && numGe (value r) 0 && numLe (value r) 100
  else if isType r "pressure" then
    isNumber (value r) && numGe (value r) 0 && numLe (value r) 2000
  else if isType r "light" then
    isNumber (value r) && numGe (value r) 0
  else if isType r "vibration" then
    isNumber (value r) && numGe (value r) 0
  else if isType r "location" then
    isObject (value r)
    && isNumber (member (value r) "latitude")
    && isNumber (member (value r) "longitude")
  else true.

Inductive Output : Type :=
| LogDebug (msg : string)
| LogInfo (msg : string)
| LogWarn (msg : string)
| EmitSensorAlert (alert : JsObject)
| EmitAlertNotification (alert : JsObject)
| EmitProcessedData (r : SensorReading).

(** [registerSensor], [unregisterSensor] and [getSensorStatus] on the
    [sensors] map. *)
Definition registerSensor (c : SensorConfig) (sensors : gmap string SensorConfig)
  : gmap string SensorConfig :=
  <[configId c := c]> sensors.

Definition unregisterSensor (id : string) (sensors : gmap string SensorConfig)
  : gmap string SensorConfig :=
  delete id sensors.

Definition getSensorStatus (id : string) (sensors : gmap string SensorConfig)
  : option SensorConfig :=
  sensors !! id.

(** The property key a possibly absent string denotes. *)
Definition propertyKey (s : option string) : string := default "undefined" s.

(** The three early returns of [checkForAlerts]: the threshold that applies
    to a reading, if any. *)
Definition thresholdFor (sensors : gmap string SensorConfig) (r : SensorReading)
  : option Threshold :=
  id ← sensorId r;
  sensorConfig ← sensors !! id;
  ths ← thresholds sensorConfig;
  ths !! propertyKey (sensorType r).

Section WithHost.

Context (h : Host).

Definition thresholdObject (t : Threshold) : JsValue :=
  VObj [("min", VNum (thresholdMin t)); ("max", VNum (thresholdMax t))].

(** The object literal [alert] *)
Definition alertObject (r : SensorReading) (t : Threshold) (alertMessage : string)
  : JsObject :=
  [ ("sensorId", ofString (sensorId r));
    ("sensorType", ofString (sensorType r));
    ("value", value r);
    ("threshold", thresholdObject t);
    ("message", VStr alertMessage);
    ("timestamp", ofString (timestamp r));
    ("severity", VStr "high") ].

Definition maxMessage (r : SensorReading) (t : Threshold) : string :=
  ToString h (ofString (sensorType r)) ++ " exceeded maximum threshold: "
  ++ ToString h (value r) ++ " > " ++ Number_toString h (thresholdMax t).

Definition minMessage (r : SensorReading) (t : Threshold) : string :=
  ToString h (ofString (sensorType r)) ++ " below minimum threshold: "
  ++ ToString h (value r) ++ " < " ++ Number_toString h (thresholdMin t).

(** [checkForAlerts]: the alert emitted on 'sensorAlert', if any. *)
Definition checkForAlerts (sensors : gmap string SensorConfig) (r : SensorReading)
  : option JsObject :=
  match thresholdFor sensors r with
  | None => None
  | Some threshold =>
      if gt h (value r) (thresholdMax threshold)
      then Some (alertObject r threshold (maxMessage r threshold))
      else if lt h (value r) (thresholdMin threshold)
      then Some (alertObject r threshold (minMessage r threshold))
      else None
  end.

(** [handleSensorAlert], the collector's own listener on 'sensorAlert' *)
Definition handleSensorAlert (alert : JsObject) : list Output :=
  [ LogWarn ("Sensor alert: " ++ ToString h (getProp "message" alert));
    LogInfo ("Sending alert to blockchain: " ++ ToString h (getProp "sensorId" alert));
    EmitAlertNotification alert ].

(** [storeSensorData] *)
Definition storeSensorData (r : SensorReading) : list Output :=
  [ LogDebug ("Storing sensor data: " ++ ToString h (ofString (sensorId r)) ++ " - "
                ++ ToString h (ofString (sensorType r)) ++ ": "
                ++ ToString h (value r)) ].

(** [processSensorData], the collector's listener on 'sensorData': what it
    logs and emits for one reading. *)
Definition processSensorData (sensors : gmap string SensorConfig) (r : SensorReading)
  : list Output :=
  if negb (validateSensorReading r)
  then [LogWarn ("Invalid sensor reading from " ++ ToString h (ofString (sensorId r)))]
  else
    match checkForAlerts sensors r with
    | Some alert => EmitSensorAlert alert :: handleSensorAlert alert
    | None => []
    end
    ++ storeSensorData r
    ++ [EmitProcessedData r].

End WithHost.



(** What the connection handlers and [handleSensorOffline] log, emit and
    schedule. *)
Inductive Lifecycle : Type :=
| Logged (level : string) (msg : string)
| Subscribed (topic : string)
| EmitOfflineNotification (sensorId : string) (timestamp : string)
| ReconnectIn (delay : Z).


(** The fields of the connection; [mqttClient] is [this.mqttClient !== null]. *)
Record Connection : Type := {
  mqttClient : bool;
  isConnected : bool;
  reconnectAttempts : nat;
  maxReconnectAttempts : nat
}.

Definition disconnected : Connection :=
  {| mqttClient := false;
     isConnected := false;
     reconnectAttempts := 0;
     maxReconnectAttempts := 5 |}.

(** The topics of [subscribeToSensorTopics] *)
Definition topics : list string :=
  [ "sensors/+/temperature"; "sensors/+/humidity"; "sensors/+/location";
    "sensors/+/pressure"; "sensors/+/light"; "sensors/+/vibration";
    "sensors/+/status"; "sensors/+/alert" ].

Definition subscribeToSensorTopics (c : Connection) : list Lifecycle :=
  if mqttClient c then map Subscribed topics else [].

(** [connect]: a client is created; its handlers are the functions below. *)
Definition connect (c : Connection) : Connection :=
  {| mqttClient := true;
     isConnected := isConnected c;
     reconnectAttempts := reconnectAttempts c;
     maxReconnectAttempts := maxReconnectAttempts c |}.

(** The handler of 'connect' *)
Definition onConnect (c : Connection) : Connection * list Lifecycle :=
  let c' := {| mqttClient := mqttClient c;
               isConnected := true;
               reconnectAttempts := 0;
               maxReconnectAttempts := maxReconnectAttempts c |} in
  (c', Logged "info" "MQTT client connected successfully"
         :: subscribeToSensorTopics c').

(** The handler of 'error' *)
Definition onError (c : Connection) : Connection * list Lifecycle :=
  ({| mqttClient := mqttClient c;
      isConnected := false;
      reconnectAttempts := reconnectAttempts c;
      maxReconnectAttempts := maxReconnectAttempts c |},
   [Logged "error" "MQTT client error:"]).

(** [handleReconnection]: [setTimeout(() => this.connect(), 5000 *
    this.reconnectAttempts)] after the increment, or the final error. *)
Definition handleReconnection (c : Connection) : Connection * list Lifecycle :=
  if Nat.ltb (reconnectAttempts c) (maxReconnectAttempts c)
  then
    let attempts := S (reconnectAttempts c) in
    ({| mqttClient := mqttClient c;
        isConnected := isConnected c;
        reconnectAttempts := attempts;
        maxReconnectAttempts := maxReconnectAttempts c |},
     [Logged "info" ("Attempting to reconnect to MQTT broker (attempt "
                       ++ pretty attempts ++ ")");
      ReconnectIn (5000 * Z.of_nat attempts)])
  else
    (c, [Logged "error"
           "Max reconnection attempts reached. MQTT client will not reconnect."]).

(** The handler of 'close' *)
Definition onClose (c : Connection) : Connection * list Lifecycle :=
  let c' := {| mqttClient := mqttClient c;
               isConnected := false;
               reconnectAttempts := reconnectAttempts c;
               maxReconnectAttempts := maxReconnectAttempts c |} in
  let (c'', out) := handleReconnection c' in
  (c'', Logged "warn" "MQTT client connection closed" :: out).

(** [disconnect] *)
Definition disconnect (c : Connection) : Connection * list Lifecycle :=
  if mqttClient c
  then ({| mqttClient := false;
           isConnected := false;
           reconnectAttempts := reconnectAttempts c;
           maxReconnectAttempts := maxReconnectAttempts c |},
        [Logged "info" "MQTT client disconnected"])
  else (c, []).

(** [isMQTTConnected] *)
Definition isMQTTConnected (c : Connection) : bool := isConnected c.

(** What the broker's client reports, and the timer of [handleReconnection]
    firing. *)
Inductive ClientEvent : Type :=
| Connected
| Errored
| Closed
| ReconnectTimer.

Definition handle (c : Connection) (e : ClientEvent) : Connection * list Lifecycle :=
  match e with
  | Connected => onConnect c
  | Errored => onError c
  | Closed => onClose c
  | ReconnectTimer => (connect c, [])
  end.

(** The connection after a sequence of events, with everything logged,
    subscribed and scheduled on the way, oldest first. *)
Fixpoint handleAll (c : Connection) (es : list ClientEvent)
  : Connection * list Lifecycle :=
  match es with
  | [] => (c, [])
  | e :: rest =>
      let (c', out) := handle c e in
      let (c'', out') := handleAll c' rest in
      (c'', (out ++ out')%list)
  end.

(** The delays of the reconnections scheduled. *)
Definition delays (out : list Lifecycle) : list Z :=
  omap (fun o => match o with ReconnectIn d => Some d | _ => None end) out.

Definition isClosed (e : ClientEvent) : bool :=
  match e with
  | Closed => true
  | _ => false
  end.

End SensorDataCollector.

(** ** index.ts: the wiring of the two objects *)

Module ChainTraceIoTModule.

Record State : Type := {
  sensors : gmap string SensorConfig;
  dataProcessor : DataProcessor.State;
  collectorOutputs : list SensorDataCollector.Output
}.

(** [emit('sensorData', reading)] in the collector.  The listeners run in
    the order of their registration: the collector's own
    [processSensorData] (constructor of the collector), then
    [reading => this.dataProcessor.addToQueue(reading)] ([setupEventHandlers]
    of the module). *)
Definition emitSensorData (h : Host) (now : Z) (r : SensorReading) (m : State) : State :=
  {| sensors := sensors m;
     dataProcessor := DataProcessor.addToQueue h now r (dataProcessor m);
     collectorOutputs :=
       collectorOutputs m ++ SensorDataCollector.processSensorData h (sensors m) r |}.

Definition init : State :=
  {| sensors := ∅;
     dataProcessor := DataProcessor.init;
     collectorOutputs := [] |}.



End ChainTraceIoTModule.

(** ** The intervals of the processor

    [setInterval] hands out a fresh handle and its callback runs at every
    tick until [clearInterval] is given that handle.  [DataProcessor] keeps
    one handle, in [intervalId]: [startProcessing] overwrites it and
    [stopProcessing] clears the interval it names.  The constructor calls
    [startProcessing], and so does [ChainTraceIoTModule.start]. *)

Module Timers.

Record Timers : Type := {
  intervalId : option nat;
  running : list nat;
  nextHandle : nat
}.

(** [setInterval(callback, delay)]: the handle and the timers afterwards. *)
Definition setInterval (t : Timers) : nat * Timers :=
  (nextHandle t,
   {| intervalId := intervalId t;
      running := running t ++ [nextHandle t];
      nextHandle := S (nextHandle t) |}).

(** [clearInterval(handle)] *)
Definition clearInterval (i : nat) (t : Timers) : Timers :=
  {| intervalId := intervalId t;
     running := List.filter (fun j => negb (Nat.eqb j i)) (running t);
     nextHandle := nextHandle t |}.

(** [startProcessing]: [this.intervalId = setInterval(...)] *)
Definition startProcessing (t : Timers) : Timers :=
  let (i, t') := setInterval t in
  {| intervalId := Some i; running := running t'; nextHandle := nextHandle t' |}.

(** [stopProcessing]: a handle is truthy, [null] is not. *)
Definition stopProcessing (t : Timers) : Timers :=
  match intervalId t with
  | Some i =>
      let t' := clearInterval i t in
      {| intervalId := None; running := running t'; nextHandle := nextHandle t' |}
  | None => t
  end.

(** The field initialiser [intervalId = null], before the constructor runs. *)
Definition fresh : Timers :=
  {| intervalId := None; running := []; nextHandle := 0 |}.

(** [new DataProcessor()] *)
Definition constructed : Timers := startProcessing fresh.

(** The callback that [startProcessing] hands to [setInterval]. *)
Definition callback (h : Js.Host) (now : Z) (s : DataProcessor.State)
  : DataProcessor.State :=
  if Nat.ltb 0 (length (DataProcessor.processingQueue s))
     && negb (DataProcessor.isProcessing s)
  then DataProcessor.processQueue h now s
  else s.

(** A tick of the interval [i]: its callback runs if the interval has not
    been cleared. *)
Definition tick (h : Js.Host) (now : Z) (i : nat) (t : Timers)
  (s : DataProcessor.State) : DataProcessor.State :=
  if existsb (Nat.eqb i) (running t) then callback h now s else s.

End Timers.

(** ** utils/validation.ts: [SensorDataValidator]

    Strings are sequences of code units below 256, so that [String.length]
    is the [length] of the code. *)

Module SensorDataValidator.

(** [class ValidationError extends Error] *)
Inductive ValidationError : Type :=
| Invalid (message : string).

Definition Checked : Type := ValidationError + unit.

Definition valid : Checked := inr tt.
Definition invalid (message : string) : Checked := inl (Invalid message).

Definition missing := DataProcessor.missing.
Definition isType := DataProcessor.isType.
Definition isNumber := DataProcessor.isNumber.
Definition isObject := DataProcessor.isObject.

Definition nullish (v : JsValue) : bool :=
  match v with
  | VNull | VUndefined => true
  | _ => false
  end.

(** [isNaN(Date.parse(s))] on a present string *)
Definition unparseable (h : Host) (s : option string) : bool :=
  match s with
  | Some x => match Date_getTime h x with Some _ => false | None => true end
  | None => true
  end.

(** [validateSensorReading] *)
Definition validateSensorReading (h : Host) (r : SensorReading) : Checked :=
  if missing (sensorId r) then invalid "Sensor ID is required"
  else if missing (sensorType r) then invalid "Sensor type is required"
  else if nullish (value r) then invalid "Sensor value is required"
  else if negb (truthy (ofString (timestamp r))) then invalid "Timestamp is required"
  else if unparseable h (timestamp r) then invalid "Invalid timestamp format"
  else if isType r "temperature" then
    if negb (isNumber (value r)) || numLt (value r) (-50) || numGt (value r) 150
    then invalid "Invalid temperature value (must be between -50 and 150)"
    else valid
  else if isType r "humidity" then
    if negb (isNumber (value r)) || numLt (value r) 0 || numGt (value r) 100
    then invalid "Invalid humidity value (must be between 0 and 100)"
    else valid
  else if isType r "pressure" then
    if negb (isNumber (value r)) || numLt (value r) 0 || numGt (value r) 2000
    then invalid "Invalid pressure value (must be between 0 and 2000)"
    else valid
  else if isType r "light" then
    if negb (isNumber (value r)) || numLt (value r) 0
    then invalid "Invalid light value (must be non-negative)"
    else valid
  else if isType r "vibration" then
    if negb (isNumber (value r)) || numLt (value r) 0
    then invalid "Invalid vibration value (must be non-negative)"
    else valid
  else if isType r "location" then
    if negb (isObject (value r))
       || negb (isNumber (member (value r) "latitude"))
       || negb (isNumber (member (value r) "longitude"))
    then invalid "Invalid location value (must have latitude and longitude)"
    else if numLt (member (value r) "latitude") (-90)
            || numGt (member (value r) "latitude") 90
    then invalid "Invalid latitude (must be between -90 and 90)"
    else if numLt (member (value r) "longitude") (-180)
            || numGt (member (value r) "longitude") 180
    then invalid "Invalid longitude (must be between -180 and 180)"
    else valid
  else invalid ("Unknown sensor type: " ++ default "undefined" (sensorType r)).

(** [/^[a-zA-Z0-9_-]+$/]: the characters of the class *)
Definition isIdChar (c : Ascii.ascii) : bool :=
  let n := Ascii.nat_of_ascii c in
  (Nat.leb 97 n && Nat.leb n 122)
  || (Nat.leb 65 n && Nat.leb n 90)
  || (Nat.leb 48 n && Nat.leb n 57)
  || Nat.eqb n 95
  || Nat.eqb n 45.

Fixpoint allChars (f : Ascii.ascii -> bool) (s : string) : bool :=
  match s with
  | EmptyString => true
  | String c rest => f c && allChars f rest
  end.

Definition matchesIdPattern (s : string) : bool :=
  negb (String.eqb s "") && allChars isIdChar s.

(** [validateSensorId] *)
Definition validateSensorId (sensorId : option string) : Checked :=
  if missing sensorId then invalid "Sensor ID is required"
  else if Nat.ltb 50 (String.length (default "" sensorId))
  then invalid "Sensor ID is too long (max 50 characters)"
  else if negb (matchesIdPattern (default "" sensorId))
  then invalid "Sensor ID contains invalid characters (only alphanumeric, underscore, and hyphen allowed)"
  else valid.

(** [validateTimestamp], called when the clock shows [now] *)
Definition validateTimestamp (h : Host) (now : Z) (timestamp : option string) : Checked :=
  match timestamp with
  | None => invalid "Timestamp is required"
  | Some s =>
      if negb (truthy (VStr s)) then invalid "Timestamp is required"
      else
        match Date_getTime h s with
        | None => invalid "Invalid timestamp format"
        | Some t =>
            let diff := (t - now)%Z in
            if (3600000 <? diff)%Z
            then invalid "Timestamp cannot be more than 1 hour in the future"
            else if (diff <? -2592000000)%Z
            then invalid "Timestamp cannot be more than 30 days in the past"
            else valid
        end
  end.

(** [validateLocation], on a location of the declared type *)
Definition validateLocation (l : Location) : Checked :=
  if PrimFloat.ltb (latitude l) (-90) || PrimFloat.ltb 90 (latitude l)
  then invalid "Invalid latitude (must be between -90 and 90)"
  else if PrimFloat.ltb (longitude l) (-180) || PrimFloat.ltb 180 (longitude l)
  then invalid "Invalid longitude (must be between -180 and 180)"
  else
    match accuracy l with
    | Some a =>
        if PrimFloat.ltb a 0
        then invalid "Invalid accuracy (must be non-negative)"
        else valid
    | None => valid
    end.

(** The strings that the members of the unions [type] and [severity] are *)
Definition alertTypeName (t : AlertType) : string :=
  match t with
  | QUALITY_LOW => "QUALITY_LOW"
  | ANOMALY_DETECTED => "ANOMALY_DETECTED"
  | THRESHOLD_EXCEEDED => "THRESHOLD_EXCEEDED"
  | SENSOR_OFFLINE => "SENSOR_OFFLINE"
  end.

Definition severityName (s : Severity) : string :=
  match s with
  | low => "low"
  | medium => "medium"
  | high => "high"
  | critical => "critical"
  end.

(** [validateDataAlert] *)
Definition validateDataAlert (h : Host) (alert : DataAlert) : Checked :=
  if missing (alertSensorId alert) then invalid "Sensor ID is required"
  else if missing (Some (alertTypeName (alertType alert)))
  then invalid "Alert type is required"
  else if negb (truthy (VStr (severityName (severity alert))))
          || negb (existsb (String.eqb (severityName (severity alert)))
                     ["low"; "medium"; "high"; "critical"])
  then invalid "Invalid alert severity (must be low, medium, high, or critical)"
  else if missing (Some (message alert)) then invalid "Alert message is required"
  else if negb (truthy (ofString (alertTimestamp alert)))
  then invalid "Alert timestamp is required"
  else if unparseable h (alertTimestamp alert)
  then invalid "Invalid alert timestamp format"
  else valid.

End SensorDataValidator.

(** ** A concrete host

    Used to run the definitions on concrete inputs: ISO-8601 instants in the
    format of [Date.prototype.toISOString] ([YYYY-MM-DDTHH:mm:ss.sssZ]) are
    parsed to their time value and integral numbers are printed; the other
    built-ins are stand-ins, which the examples below do not reach. *)

Module Iso8601.

Definition digit (c : Ascii.ascii) : option Z :=
  let n := Z.of_nat (Ascii.nat_of_ascii c) - 48 in
  if (0 <=? n)%Z && (n <=? 9)%Z then Some n else None.

Fixpoint number (acc : Z) (s : string) : option Z :=
  match s with
  | EmptyString => Some acc
  | String c rest =>
      match digit c with
      | Some d => number (10 * acc + d) rest
      | None => None
      end
  end.

Definition field (s : string) (start len : nat) : option Z :=
  number 0 (String.substring start len s).

Definition separators (s : string) : bool :=
  String.eqb (String.substring 4 1 s) "-"
  && String.eqb (String.substring 7 1 s) "-"
  && String.eqb (String.substring 10 1 s) "T"
  && String.eqb (String.substring 13 1 s) ":"
  && String.eqb (String.substring 16 1 s) ":"
  && String.eqb (String.substring 19 1 s) "."
  && String.eqb (String.substring 23 1 s) "Z".

(** Days from 1970-01-01 to the given day of the proleptic Gregorian
    calendar. *)
Definition daysFromCivil (y m d : Z) : Z :=
  let y := if (m <=? 2)%Z then y - 1 else y in
  let era := y / 400 in
  let yoe := y - era * 400 in
  let mp := if (2 <? m)%Z then m - 3 else m + 9 in
  let doy := (153 * mp + 2) / 5 + d - 1 in
  let doe := yoe * 365 + yoe / 4 - yoe / 100 + doy in
  era * 146097 + doe - 719468.

Definition inRange (lo x hi : Z) : bool := (lo <=? x)%Z && (x <=? hi)%Z.

Definition getTime (s : string) : option Z :=
  if negb (Nat.eqb (String.length s) 24 && separators s) then None
  else
    y ← field s 0 4; mo ← field s 5 2; d ← field s 8 2;
    hh ← field s 11 2; mi ← field s 14 2; ss ← field s 17 2; ms ← field s 20 3;
    if inRange 1 mo 12 && inRange 1 d 31 && inRange 0 hh 23
       && inRange 0 mi 59 && inRange 0 ss 59
    then Some ((((daysFromCivil y mo d * 24 + hh) * 60 + mi) * 60 + ss) * 1000 + ms)
    else None.

(** The integer a float denotes, if it denotes one. *)
Definition integral (x : float) : option Z :=
  match Prim2SF x with
  | S754_zero _ => Some 0
  | S754_finite s m e =>
      let n :=
        if (0 <=? e)%Z then Some (Z.pos m * 2 ^ e)
        else if (Z.pos m mod 2 ^ (- e) =? 0)%Z then Some (Z.pos m / 2 ^ (- e))
        else None in
      (fun v => if s then - v else v) <$> n
  | _ => None
  end.

(** Integral values print as their decimal digits. *)
Definition numberToString (x : float) : string :=
  match integral x with
  | Some n => pretty n
  | None => "<number>"
  end.

Definition host : Host :=
  {| Date_getTime := getTime;
     Math_log := fun x => x;
     Number_toString := numberToString;
     String_toNumber := fun _ => nan |}.

End Iso8601.

(** ** Readings used as examples *)

Module Examples.

(** 2026-11-02T12:00:00.000Z *)
Definition noon : Z := 1793620800000.

Definition mkReading (id ty : string) (v : JsValue) (ts : string)
  (meta : option JsObject) : SensorReading :=
  {| sensorId := Some id;
     sensorType := Some ty;
     value := v;
     unit' := None;
     timestamp := Some ts;
     location := None;
     metadata := meta |}.

(** [{sensorId:"TEMP001", sensorType:"temperature", value:22.5,
    timestamp:now}], no metadata *)
Definition temp001 : SensorReading :=
  mkReading "TEMP001" "temperature" (VNum 22.5) "2026-11-02T12:00:00.000Z" None.

(** the same sensor, stamped two hours ahead of [noon] *)
Definition temp001Ahead : SensorReading :=
  mkReading "TEMP001" "temperature" (VNum 22.5) "2026-11-02T14:00:00.000Z" None.

(** the same sensor, stamped forty days before [noon] *)
Definition temp001Old : SensorReading :=
  mkReading "TEMP001" "temperature" (VNum 22.5) "2026-09-23T12:00:00.000Z" None.

(** the same sensor, stamped ten minutes before [noon], without and with
    metadata *)
Definition temp001Stale : SensorReading :=
  mkReading "TEMP001" "temperature" (VNum 22.5) "2026-11-02T11:50:00.000Z" None.

Definition temp001StaleTagged : SensorReading :=
  mkReading "TEMP001" "temperature" (VNum 22.5) "2026-11-02T11:50:00.000Z"
    (Some [("batch_id", VStr "BATCH001")]).

(** a temperature of exactly zero degrees *)
Definition temp001Zero : SensorReading :=
  mkReading "TEMP001" "temperature" (VNum 0) "2026-11-02T12:00:00.000Z" None.

(** a humidity of 200 *)
Definition hum001Bad : SensorReading :=
  mkReading "HUM001" "humidity" (VNum 200) "2026-11-02T12:00:00.000Z" None.

(** sensor "PRESSURE1", [thresholds.pressure = {min: 950, max: 1050}] *)
Definition pressure1Config : SensorConfig :=
  {| configId := "PRESSURE1";
     configType := "pressure";
     configLocation := (0%float, 0%float);
     thresholds := Some {[ "pressure" := {| thresholdMin := 950; thresholdMax := 1050 |} ]};
     configMetadata := None;
     status := online;
     lastSeen := None |}.

Definition pressure1100 : SensorReading :=
  mkReading "PRESSURE1" "pressure" (VNum 1100) "2026-11-02T12:00:00.000Z" None.

Definition pressure900 : SensorReading :=
  mkReading "PRESSURE1" "pressure" (VNum 900) "2026-11-02T12:00:00.000Z" None.

End Examples.

(** * Properties *)

(** ** Quality score *)

Module QualityScore.

Import DataProcessor.

(** The score in closed form: the floor of [Math.max] never applies. *)
Lemma calculateQualityScore_eq (h : Host) (now : Z) (r : SensorReading) :
  calculateQualityScore h now r
  = 100 - (if stale h now r then 20 else 0) - 10
        - (if metadataEmpty r then 5 else 0).
Proof.
  unfold calculateQualityScore, isValueReasonable.
  destruct (stale h now r), (metadataEmpty r); reflexivity.
Qed.

(** C1 (as the code computes it): the score starts at 100, loses 20 exactly
    when the reading is older than five minutes and 5 exactly when the
    metadata is absent or empty, but loses 10 always: the deduction is taken
    when [isValueReasonable] answers [true], which it always does.  A fresh
    reading without metadata therefore scores 85, not 95. *)
Theorem fresh_reading_without_metadata_scores_85
  (h : Host) (now : Z) (r : SensorReading) :
  calculateQualityScore h now r
  = 100 - (if stale h now r then 20 else 0) - 10
        - (if metadataEmpty r then 5 else 0)
  /\ (stale h now r = false -> metadata r = None ->
      calculateQualityScore h now r = 85).
Proof.
  split; [apply calculateQualityScore_eq |].
  intros Hfresh Hmeta. rewrite calculateQualityScore_eq, Hfresh.
  unfold metadataEmpty. rewrite Hmeta. reflexivity.
Qed.

Lemma fresh_reading_without_metadata_scores_85_witness :
  calculateQualityScore Iso8601.host Examples.noon Examples.temp001 = 85.
Proof.
  apply (proj2 (fresh_reading_without_metadata_scores_85
                  Iso8601.host Examples.noon Examples.temp001));
    vm_compute; reflexivity.
Defined.

(** C10: whatever the reading and the evaluation instant, the score is at
    least 65; the deductions add up to at most 35, so the floor at 0 is never
    the binding bound. *)
Theorem calculateQualityScore_at_least_65
  (h : Host) (now : Z) (r : SensorReading) :
  65 <= calculateQualityScore h now r <= 100
  /\ (exists deduction : Z,
        0 <= deduction <= 20 + 10 + 5
        /\ calculateQualityScore h now r = 100 - deduction).
Proof.
  rewrite calculateQualityScore_eq.
  destruct (stale h now r), (metadataEmpty r); (split; [lia |]).
  - exists 35; lia.
  - exists 30; lia.
  - exists 15; lia.
  - exists 10; lia.
Qed.

End QualityScore.

(** ** Validation *)

Module Validation.

Import DataProcessor SensorDataCollector.

Lemma truthy_nonempty (s : string) : s <> "" -> truthy (VStr s) = true.
Proof.
  intros Hs. simpl. destruct (String.eqb_spec s ""); [contradiction | reflexivity].
Qed.

(** A reading without a timestamp fails both validators. *)
Lemma validateSensorReading_no_timestamp (r : SensorReading) (ts : option string) :
  truthy (ofString ts) = false ->
  validateSensorReading (withTimestamp ts r) = false.
Proof.
  intros Hts. unfold validateSensorReading, requiredFields. simpl.
  rewrite Hts, !andb_false_r. reflexivity.
Qed.

Lemma validateReading_no_timestamp (r : SensorReading) (ts : option string) :
  truthy (ofString ts) = false ->
  exists e, validateReading (withTimestamp ts r) = inl e.
Proof.
  intros Hts. unfold validateReading. simpl.
  destruct (missing (sensorId r)); [eexists; reflexivity |].
  destruct (missing (sensorType r)); [eexists; reflexivity |].
  destruct (value r); try (eexists; reflexivity);
    rewrite Hts; eexists; reflexivity.
Qed.

(** C2 (as the code has it): the window of one hour ahead and thirty days
    back, with its reason for the future, is the work of
    [SensorDataValidator.validateTimestamp] alone; neither
    [DataProcessor.validateReading] nor
    [SensorDataCollector.validateSensorReading] compares the timestamp with
    the validation time.  Two readings that differ only in a non-empty
    timestamp validate alike in both; a reading whose timestamp is absent or
    empty fails in both, in [validateReading] with the reason
    "Invalid timestamp" once the sensor id, the sensor type and the value
    are present. *)
Theorem validation_ignores_timestamp_distance
  (h : Host) (now : Z) (r : SensorReading) (ts1 ts2 : string) :
  ts1 <> "" -> ts2 <> "" ->
  validateReading (withTimestamp (Some ts1) r)
    = validateReading (withTimestamp (Some ts2) r)
  /\ validateSensorReading (withTimestamp (Some ts1) r)
     = validateSensorReading (withTimestamp (Some ts2) r)
  /\ (forall ts : option string,
        ts = None \/ ts = Some "" ->
        validateSensorReading (withTimestamp ts r) = false
        /\ (exists e, validateReading (withTimestamp ts r) = inl e)
        /\ (missing (sensorId r) = false ->
            missing (sensorType r) = false ->
            value r <> VNull -> value r <> VUndefined ->
            validateReading (withTimestamp ts r) = inl (Error "Invalid timestamp")))
  /\ (forall t : Z,
        Date_getTime h ts1 = Some t ->
        ((now + 3600000 < t)%Z ->
         SensorDataValidator.validateTimestamp h now (Some ts1)
         = SensorDataValidator.invalid
             "Timestamp cannot be more than 1 hour in the future")
        /\ ((t < now - 2592000000)%Z ->
            SensorDataValidator.validateTimestamp h now (Some ts1)
            = SensorDataValidator.invalid
                "Timestamp cannot be more than 30 days in the past")
        /\ ((now - 2592000000 <= t <= now + 3600000)%Z ->
            SensorDataValidator.validateTimestamp h now (Some ts1)
            = SensorDataValidator.valid)).
Proof.
  intros H1 H2.
  pose proof (truthy_nonempty ts1 H1) as T1.
  pose proof (truthy_nonempty ts2 H2) as T2.
  split; [| split; [| split]].
  - unfold validateReading. cbn [ofString timestamp withTimestamp].
    rewrite T1, T2. reflexivity.
  - unfold validateSensorReading, requiredFields.
    cbn [ofString timestamp withTimestamp forallb].
    rewrite T1, T2. reflexivity.
  - intros ts Hts.
    assert (Hf : truthy (ofString ts) = false) by (destruct Hts; subst; reflexivity).
    split; [apply validateSensorReading_no_timestamp; exact Hf |].
    split; [apply validateReading_no_timestamp; exact Hf |].
    intros Hid Hty Hnull Hundef.
    unfold validateReading. cbn [ofString timestamp withTimestamp sensorId sensorType value].
    rewrite Hid, Hty.
    change (truthy (match ts with Some s => VStr s | None => VUndefined end))
      with (truthy (ofString ts)).
    destruct (value r); try congruence; rewrite Hf; reflexivity.
  - intros t Ht. unfold SensorDataValidator.validateTimestamp.
    rewrite T1, Ht. cbn [negb].
    destruct (Z.ltb_spec 3600000 (t - now)) as [Hf | Hf];
      [| destruct (Z.ltb_spec (t - now) (-2592000000)) as [Hp | Hp]];
      (split; [| split]); intros; first [reflexivity | lia].
Qed.

Lemma validation_ignores_timestamp_distance_witness :
  validateReading Examples.temp001Ahead = validateReading Examples.temp001
  /\ validateSensorReading Examples.temp001Ahead
     = validateSensorReading Examples.temp001
  /\ validateReading (withTimestamp None (Examples.mkReading "TEMP001" "temperature" (VNum 500) "" None))
     = inl (Error "Invalid timestamp")
  /\ SensorDataValidator.validateTimestamp Iso8601.host Examples.noon
       (Some "2026-11-02T14:00:00.000Z")
     = SensorDataValidator.invalid
         "Timestamp cannot be more than 1 hour in the future".
Proof.
  pose proof (validation_ignores_timestamp_distance Iso8601.host Examples.noon
                Examples.temp001
                "2026-11-02T14:00:00.000Z" "2026-11-02T12:00:00.000Z") as H.
  destruct H as (Hp & Hc & _ & Hw); [discriminate | discriminate |].
  pose proof (validation_ignores_timestamp_distance Iso8601.host Examples.noon
                (Examples.mkReading "TEMP001" "temperature" (VNum 500) "" None)
                "2026-11-02T14:00:00.000Z" "2026-11-02T12:00:00.000Z") as H'.
  destruct H' as (_ & _ & Hm & _); [discriminate | discriminate |].
  split; [exact Hp |]. split; [exact Hc |]. split.
  - apply (Hm None); [left; reflexivity | reflexivity | reflexivity
                     | discriminate | discriminate].
  - apply (Hw (Examples.noon + 7200000)%Z); [vm_compute; reflexivity | vm_compute; reflexivity].
Defined.

(** C2 (as stated) fails: a reading stamped two hours after the validation
    instant, and one stamped forty days before it, pass both validators. *)
Lemma timestamp_outside_window_is_accepted :
  timeOf Iso8601.host Examples.temp001Ahead = Some (Examples.noon + 2 * 3600000)
  /\ validateReading Examples.temp001Ahead = inr tt
  /\ validateSensorReading Examples.temp001Ahead = true
  /\ timeOf Iso8601.host Examples.temp001Old = Some (Examples.noon - 40 * 86400000)
  /\ validateReading Examples.temp001Old = inr tt
  /\ validateSensorReading Examples.temp001Old = true.
Proof. vm_compute. repeat split. Qed.

(** A reading handed to [addToQueue] is afterwards in the queue or in the
    batch being flushed. *)
Lemma addToQueue_keeps_reading (h : Host) (now : Z) (r : SensorReading)
  (s : DataProcessor.State) :
  In r (processingQueue (addToQueue h now r s))
  \/ (exists promises,
        awaiting (addToQueue h now r s) = Some promises
        /\ In (processSensorReading h now r) promises).
Proof.
  unfold addToQueue. cbn [batchSize processingQueue push].
  assert (Hin : In r (processingQueue s ++ [r]))
    by (apply in_or_app; right; left; reflexivity).
  destruct (Nat.leb _ _); [| left; exact Hin].
  unfold processQueue. cbn [isProcessing processingQueue batchSize push].
  destruct (isProcessing s || _); [left; exact Hin |].
  cbn [processingQueue awaiting].
  rewrite <- (take_drop (batchSize s) (processingQueue s ++ [r])) in Hin.
  apply in_app_or in Hin as [Hin | Hin]; [right | left; exact Hin].
  eexists. split; [reflexivity |]. apply in_map. exact Hin.
Qed.

(** C9 (as the code has it): a reading whose value is exactly zero fails the
    collector's validation, because the value is tested for truthiness;
    [processSensorData] then only logs a warning.  The reading is nevertheless
    handed to the processor: the 'sensorData' event reaches [addToQueue]
    whatever the collector decides, and leaves the reading in the queue or in
    the batch being flushed. *)
Theorem zero_value_fails_collector_validation (r : SensorReading) (x : float) :
  value r = VNum x ->
  PrimFloat.eqb x 0 = true ->
  validateSensorReading r = false
  /\ (forall h sensors,
        processSensorData h sensors r
        = [SensorDataCollector.LogWarn
             ("Invalid sensor reading from " ++ ToString h (ofString (sensorId r)))])
  /\ (forall h now m,
        let p := ChainTraceIoTModule.dataProcessor
                   (ChainTraceIoTModule.emitSensorData h now r m) in
        p = addToQueue h now r (ChainTraceIoTModule.dataProcessor m)
        /\ (In r (processingQueue p)
            \/ exists promises,
                 awaiting p = Some promises
                 /\ In (processSensorReading h now r) promises)).
Proof.
  intros Hv Hx.
  assert (Hinvalid : validateSensorReading r = false).
  { unfold validateSensorReading, requiredFields. cbn [forallb].
    rewrite Hv. cbn [truthy]. rewrite Hx. cbn [orb negb].
    rewrite !andb_false_r, ?andb_false_l. reflexivity. }
  split; [exact Hinvalid |]. split.
  - intros h sensors. unfold processSensorData. rewrite Hinvalid. reflexivity.
  - intros h now m p. split; [reflexivity |].
    apply addToQueue_keeps_reading.
Qed.

Lemma zero_value_fails_collector_validation_witness :
  validateSensorReading Examples.temp001Zero = false.
Proof.
  apply (zero_value_fails_collector_validation Examples.temp001Zero 0%float);
    reflexivity.
Defined.

(** C9 (as stated) fails in its last part: the zero-degree reading, which the
    collector's validation refuses, is in the processor's queue once the
    'sensorData' event has been dispatched, and the processor accepts it. *)
Lemma zero_reading_reaches_the_queue :
  validateSensorReading Examples.temp001Zero = false
  /\ processingQueue
       (ChainTraceIoTModule.dataProcessor
          (ChainTraceIoTModule.emitSensorData Iso8601.host Examples.noon
             Examples.temp001Zero ChainTraceIoTModule.init))
     = [Examples.temp001Zero]
  /\ validateReading Examples.temp001Zero = inr tt.
Proof. vm_compute. repeat split. Qed.

End Validation.

(** ** Derivation *)

Module Derivation.

Import DataProcessor.

Lemma isType_eq (r : SensorReading) (ty : string) :
  sensorType r = Some ty -> isType r ty = true.
Proof.
  intros H. unfold isType. rewrite H. apply String.eqb_refl.
Qed.

(** What a fulfilled [processSensorReading] went through. *)
Lemma processSensorReading_inr (h : Host) (now : Z) (r : SensorReading)
  (p : ProcessedData) :
  processSensorReading h now r = inr p ->
  validateReading r = inr tt
  /\ exists derived transformed,
       calculateDerivedMetrics h r = inr derived
       /\ applyTransformations h r = inr transformed
       /\ p = {| reading := r;
                 derivedMetrics := derived;
                 transformedData := transformed;
                 qualityScore := calculateQualityScore h now r;
                 processedAt := now;
                 processingVersion := "1.0.0" |}.
Proof.
  unfold processSensorReading, Js.bind, ok.
  destruct (validateReading r) as [e | []]; [discriminate |].
  destruct (calculateDerivedMetrics h r) as [e | derived]; [discriminate |].
  destruct (applyTransformations h r) as [e | transformed]; [discriminate |].
  intros H. injection H as <-. split; [reflexivity |].
  exists derived, transformed. repeat split.
Qed.

(** A reading that passes [validateReading] is processed: no later step
    throws. *)
Lemma processSensorReading_total (h : Host) (now : Z) (r : SensorReading) :
  validateReading r = inr tt ->
  exists p, processSensorReading h now r = inr p.
Proof.
  intros Hv. unfold processSensorReading. rewrite Hv. cbn [Js.bind].
  unfold validateReading in Hv.
  destruct (missing (sensorId r)) eqn:Hid; [discriminate |].
  destruct (missing (sensorType r)) eqn:Hty; [discriminate |].
  assert (Hval : exists d, calculateDerivedMetrics h r = inr d).
  { unfold calculateDerivedMetrics, valueMember, Js.bind, ok.
    destruct (isType r "temperature"); [eexists; reflexivity |].
    destruct (isType r "humidity"); [eexists; reflexivity |].
    destruct (isType r "pressure"); [eexists; reflexivity |].
    destruct (isType r "location"); [| eexists; reflexivity].
    destruct (value r); try discriminate; eexists; reflexivity. }
  destruct Hval as [d ->]. cbn [Js.bind].
  unfold applyTransformations, callOn.
  destruct (sensorId r); [| discriminate].
  destruct (sensorType r); [| discriminate].
  cbn [Js.bind]. eexists. reflexivity.
Qed.

(** C8: for a temperature reading the derived metrics are the value itself
    as [celsius], [value * 9 / 5 + 32] as [fahrenheit] and [value + 273.15] as
    [kelvin], with the operators of the language; for a numeric value [v],
    the only kind that [validateReading] lets through, these are [v],
    [v * 9 / 5 + 32] and [v + 273.15] in binary64 arithmetic.  The processed
    envelope carries the value as [celsius] and as [originalValue]. *)
Theorem temperature_derived_metrics (h : Host) (r : SensorReading) :
  sensorType r = Some "temperature" ->
  calculateDerivedMetrics h r
  = inr [ ("celsius", value r);
          ("fahrenheit", add h (div h (mul h (value r) (VNum 9)) (VNum 5)) (VNum 32));
          ("kelvin", add h (value r) (VNum 273.15)) ]
  /\ (forall v : float,
        value r = VNum v ->
        calculateDerivedMetrics h r
        = inr [ ("celsius", VNum v);
                ("fahrenheit", VNum (v * 9 / 5 + 32)%float);
                ("kelvin", VNum (v + 273.15)%float) ])
  /\ (forall now p,
        processSensorReading h now r = inr p ->
        getProp "celsius" (derivedMetrics p) = value r
        /\ originalValue (transformedData p) = value r).
Proof.
  intros Hty. pose proof (isType_eq r _ Hty) as Ht.
  assert (Hm : calculateDerivedMetrics h r
               = inr [ ("celsius", value r);
                       ("fahrenheit",
                        add h (div h (mul h (value r) (VNum 9)) (VNum 5)) (VNum 32));
                       ("kelvin", add h (value r) (VNum 273.15)) ]).
  { unfold calculateDerivedMetrics. rewrite Ht. reflexivity. }
  split; [exact Hm | split].
  - intros v Hv. rewrite Hm, Hv. reflexivity.
  - intros now p Hp.
    apply processSensorReading_inr in Hp as (_ & d & t & Hd & Htr & ->).
    rewrite Hm in Hd. injection Hd as <-. cbn [derivedMetrics transformedData].
    split; [reflexivity |].
    unfold applyTransformations, callOn, Js.bind, ok in Htr.
    destruct (sensorId r); [| discriminate].
    destruct (sensorType r); [| discriminate].
    injection Htr as <-. reflexivity.
Qed.

Lemma temperature_derived_metrics_witness :
  calculateDerivedMetrics Iso8601.host Examples.temp001
  = inr [ ("celsius", VNum 22.5);
          ("fahrenheit", VNum 72.5);
          ("kelvin", VNum (22.5 + 273.15)%float) ].
Proof.
  exact (proj1 (proj2 (temperature_derived_metrics Iso8601.host Examples.temp001
                         eq_refl))
           22.5%float eq_refl).
Defined.

(** C6 (as the code has it): [processedAt] is the instant at which the reading
    is processed; it is not earlier than the reading's timestamp whenever
    that timestamp is not later than the processing instant. *)
Theorem processedAt_is_processing_instant
  (h : Host) (now : Z) (r : SensorReading) (p : ProcessedData) :
  processSensorReading h now r = inr p ->
  reading p = r
  /\ processedAt p = now
  /\ (forall t, timeOf h r = Some t -> t <= now -> t <= processedAt p).
Proof.
  intros Hp. apply processSensorReading_inr in Hp as (_ & d & t & _ & _ & ->).
  cbn [reading processedAt]. repeat split. intros; assumption.
Qed.

Lemma processedAt_is_processing_instant_witness :
  exists p, processSensorReading Iso8601.host Examples.noon Examples.temp001 = inr p
            /\ processedAt p = Examples.noon.
Proof.
  destruct (processSensorReading Iso8601.host Examples.noon Examples.temp001)
    as [e | p] eqn:Hp; [vm_compute in Hp; discriminate |].
  exists p. split; [reflexivity |].
  exact (proj1 (proj2 (processedAt_is_processing_instant _ _ _ _ Hp))).
Defined.

(** C6 (as stated) fails: a reading stamped two hours ahead passes
    [validateReading] and is processed with a [processedAt] that precedes its
    timestamp. *)
Lemma processedAt_precedes_future_timestamp :
  exists p t,
    validateReading Examples.temp001Ahead = inr tt
    /\ processSensorReading Iso8601.host Examples.noon Examples.temp001Ahead = inr p
    /\ timeOf Iso8601.host (reading p) = Some t
    /\ processedAt p < t.
Proof.
  eexists. eexists. split; [reflexivity |]. split; [reflexivity |].
  split; [vm_compute; reflexivity | vm_compute; reflexivity].
Qed.

End Derivation.

(** ** Alerts *)

Module Alerts.

(** *** The per-batch sweep of the processor *)

Section QualityLow.

Import DataProcessor.

(** With [isAnomaly] constantly false, the sweep keeps the readings whose
    score is below 70 and turns each into its QUALITY_LOW alert. *)
Lemma checkForAlerts_filter (ds : list ProcessedData) :
  checkForAlerts ds
  = map qualityLowAlert (List.filter (fun d => (qualityScore d <? 70)%Z) ds).
Proof.
  induction ds as [| d ds IH]; [reflexivity |].
  cbn [checkForAlerts List.filter]. unfold isAnomaly. rewrite IH.
  destruct (qualityScore d <? 70)%Z; reflexivity.
Qed.

Lemma qualityLowAlert_inj (d d' : ProcessedData) :
  qualityLowAlert d = qualityLowAlert d' -> d = d'.
Proof.
  intros H. apply (f_equal data) in H. cbn in H. congruence.
Qed.

(** C7: in the alerts of a batch, the QUALITY_LOW alerts are exactly the
    alerts of the readings whose quality score is strictly below 70, each
    with severity medium; a score of exactly 70 raises none, a score of 69
    raises one; and the alerts of a fulfilled batch are emitted as soon as
    there is one. *)
Theorem quality_low_iff_score_below_70 (ds : list ProcessedData) :
  (forall a,
     In a (checkForAlerts ds) /\ alertType a = QUALITY_LOW
     <-> exists d, In d ds /\ (qualityScore d < 70)%Z /\ a = qualityLowAlert d)
  /\ (forall d,
        In d ds ->
        (In (qualityLowAlert d) (checkForAlerts ds) <-> (qualityScore d < 70)%Z))
  /\ (forall a,
        In a (checkForAlerts ds) -> alertType a = QUALITY_LOW -> severity a = medium)
  /\ (forall d,
        (qualityScore d = 70 -> checkForAlerts [d] = [])
        /\ (qualityScore d = 69 -> checkForAlerts [d] = [qualityLowAlert d]))
  /\ (forall promises,
        promiseAll promises = inr ds ->
        (In (EmitAlertGenerated (checkForAlerts ds)) (resumed promises)
         <-> checkForAlerts ds <> [])).
Proof.
  assert (Hin : forall a,
             In a (checkForAlerts ds)
             <-> exists d, In d ds /\ (qualityScore d < 70)%Z /\ a = qualityLowAlert d).
  { intros a. rewrite checkForAlerts_filter, in_map_iff. split.
    - intros (d & <- & Hd). apply filter_In in Hd as [Hd Hlt].
      exists d. repeat split; [assumption | lia].
    - intros (d & Hd & Hlt & ->). exists d. split; [reflexivity |].
      apply filter_In. split; [assumption | lia]. }
  split; [| split; [| split; [| split]]].
  - intros a. rewrite Hin. split.
    + intros [H _]. exact H.
    + intros (d & Hd & Hlt & ->). split; [| reflexivity]. exists d. auto.
  - intros d Hd. rewrite Hin. split.
    + intros (d' & _ & Hlt & Heq). apply qualityLowAlert_inj in Heq. congruence.
    + intros Hlt. exists d. auto.
  - intros a Ha _. apply Hin in Ha as (d & _ & _ & ->). reflexivity.
  - intros d. split; intros Hq; cbn [checkForAlerts]; rewrite Hq; reflexivity.
  - intros promises Hall. unfold resumed. rewrite Hall.
    destruct (checkForAlerts ds) as [| a alerts] eqn:Halerts.
    + cbn. split; [| congruence].
      intros [H | [H | []]]; discriminate.
    + cbn. split; [congruence |]. intros _. right. right. left. reflexivity.
Qed.

Lemma quality_low_iff_score_below_70_witness :
  exists p65 p70,
    processSensorReading Iso8601.host Examples.noon Examples.temp001Stale = inr p65
    /\ processSensorReading Iso8601.host Examples.noon Examples.temp001StaleTagged
       = inr p70
    /\ qualityScore p65 = 65 /\ qualityScore p70 = 70
    /\ In (qualityLowAlert p65) (checkForAlerts [p65; p70])
    /\ ~ In (qualityLowAlert p70) (checkForAlerts [p65; p70]).
Proof.
  destruct (processSensorReading Iso8601.host Examples.noon Examples.temp001Stale)
    as [e | p65] eqn:H65; [vm_compute in H65; discriminate |].
  destruct (processSensorReading Iso8601.host Examples.noon Examples.temp001StaleTagged)
    as [e | p70] eqn:H70; [vm_compute in H70; discriminate |].
  assert (S65 : qualityScore p65 = 65)
    by (vm_compute in H65; injection H65 as <-; reflexivity).
  assert (S70 : qualityScore p70 = 70)
    by (vm_compute in H70; injection H70 as <-; reflexivity).
  destruct (quality_low_iff_score_below_70 [p65; p70]) as (_ & Hiff & _).
  exists p65, p70. repeat split; try assumption.
  - apply Hiff; [left; reflexivity | lia].
  - intros Hin. apply Hiff in Hin; [lia | right; left; reflexivity].
Defined.

End QualityLow.

(** *** The threshold check of the collector *)

Section Threshold.

Import SensorDataCollector.

Lemma thresholdFor_unregistered (sensors : gmap string SensorConfig)
  (r : SensorReading) (id : string) :
  sensorId r = Some id -> sensors !! id = None -> thresholdFor sensors r = None.
Proof.
  intros Hid Hnone. unfold thresholdFor. rewrite Hid. cbn. rewrite Hnone. reflexivity.
Qed.

(** C3 (what the code does): for a reading to which a registered threshold
    applies, an alert is emitted exactly when the raw value is above the
    maximum or below the minimum; the alert has severity "high", carries the
    raw value and a message naming the bound and the value, and has no
    [type] property.  A reading of an unregistered sensor raises none. *)
Theorem threshold_alert_iff_out_of_bounds
  (h : Host) (sensors : gmap string SensorConfig) (r : SensorReading) :
  (forall t,
     thresholdFor sensors r = Some t ->
     (is_Some (checkForAlerts h sensors r)
      <-> gt h (value r) (thresholdMax t) = true
          \/ lt h (value r) (thresholdMin t) = true)
     /\ (forall v : float,
           value r = VNum v ->
           (is_Some (checkForAlerts h sensors r)
            <-> PrimFloat.ltb (thresholdMax t) v = true
                \/ PrimFloat.ltb v (thresholdMin t) = true))
     /\ (forall alert,
           checkForAlerts h sensors r = Some alert ->
           getProp "severity" alert = VStr "high"
           /\ getProp "type" alert = VUndefined
           /\ getProp "value" alert = value r
           /\ getProp "threshold" alert = thresholdObject t
           /\ getProp "message" alert
              = VStr (if gt h (value r) (thresholdMax t)
                      then maxMessage h r t else minMessage h r t)))
  /\ (forall id,
        sensorId r = Some id -> sensors !! id = None ->
        checkForAlerts h sensors r = None).
Proof.
  split.
  - intros t Ht. unfold checkForAlerts. rewrite Ht.
    assert (Hiff : is_Some
                     (if gt h (value r) (thresholdMax t)
                      then Some (alertObject r t (maxMessage h r t))
                      else if lt h (value r) (thresholdMin t)
                           then Some (alertObject r t (minMessage h r t))
                           else None)
                   <-> gt h (value r) (thresholdMax t) = true
                       \/ lt h (value r) (thresholdMin t) = true).
    { destruct (gt h (value r) (thresholdMax t)), (lt h (value r) (thresholdMin t));
        split; intros H; eauto;
        try (destruct H as [x Hx]; discriminate);
        try (destruct H; discriminate). }
    split; [exact Hiff |]. split.
    + intros v Hv. rewrite Hiff, Hv. reflexivity.
    + intros alert.
      destruct (gt h (value r) (thresholdMax t)).
      * intros [= <-]. repeat split.
      * destruct (lt h (value r) (thresholdMin t)); [| discriminate].
        intros [= <-]. repeat split.
  - intros id Hid Hnone. unfold checkForAlerts.
    rewrite (thresholdFor_unregistered _ _ _ Hid Hnone). reflexivity.
Qed.

Lemma threshold_alert_iff_out_of_bounds_witness :
  exists alert,
    checkForAlerts Iso8601.host {[ "PRESSURE1" := Examples.pressure1Config ]}
      Examples.pressure1100 = Some alert
    /\ getProp "severity" alert = VStr "high"
    /\ getProp "type" alert = VUndefined
    /\ getProp "message" alert
       = VStr "pressure exceeded maximum threshold: 1100 > 1050".
Proof.
  pose proof (proj1 (threshold_alert_iff_out_of_bounds Iso8601.host
                       {[ "PRESSURE1" := Examples.pressure1Config ]}
                       Examples.pressure1100)
                {| thresholdMin := 950; thresholdMax := 1050 |} eq_refl)
    as (Hiff & _ & Halert).
  destruct (proj2 Hiff (or_introl eq_refl)) as [alert Ha].
  exists alert. split; [exact Ha |].
  destruct (Halert alert Ha) as (Hs & Hty & _ & _ & Hm).
  split; [exact Hs |]. split; [exact Hty |].
  rewrite Hm. vm_compute. reflexivity.
Defined.

End Threshold.

End Alerts.

(** ** The queue and its flushes *)

Module Batching.

Import DataProcessor.

(** *** [Promise.all] *)

Lemma promiseAll_fulfilled {A : Type} (ps : list (Result A)) (l : list A) :
  promiseAll ps = inr l <-> ps = map inr l.
Proof.
  revert l. induction ps as [| p ps IH]; intros l.
  - cbn. split.
    + intros [= <-]. reflexivity.
    + destruct l; [reflexivity | discriminate].
  - cbn. destruct p as [e | a].
    + split; [discriminate |]. destruct l; discriminate.
    + destruct (promiseAll ps) as [e | l'] eqn:Hall.
      * split; [discriminate |]. destruct l as [| a' l]; [discriminate |].
        cbn. intros [= -> Hps]. apply IH in Hps. discriminate.
      * split.
        -- intros [= <-]. cbn. f_equal. apply IH. reflexivity.
        -- destruct l as [| a' l]; [discriminate |].
           cbn. intros [= -> Hps]. apply IH in Hps. injection Hps as ->. reflexivity.
Qed.

Lemma promiseAll_rejected {A : Type} (ps : list (Result A)) :
  (exists e, In (inl e) ps) <-> (exists e, promiseAll ps = inl e /\ In (inl e) ps).
Proof.
  split; [| intros (e & _ & H); eauto].
  induction ps as [| p ps IH]; intros [e He]; [destruct He |].
  cbn. destruct p as [e' | a].
  - exists e'. split; [reflexivity | left; reflexivity].
  - destruct He as [He | He]; [discriminate |].
    destruct (IH (ex_intro _ e He)) as (e1 & -> & Hin).
    exists e1. split; [reflexivity | right; exact Hin].
Qed.

(** *** What a flush logs and emits *)

Lemma rejectionLog_no_emit (ps : list (Result ProcessedData)) :
  Forall (fun o => isEmit o = false) (concat (map rejectionLog ps)).
Proof.
  induction ps as [| [e | p] ps IH]; cbn; [constructor | | exact IH].
  constructor; [reflexivity | exact IH].
Qed.

Lemma rejectionLog_no_flush_start (ps : list (Result ProcessedData)) :
  List.filter isFlushStart (concat (map rejectionLog ps)) = [].
Proof.
  induction ps as [| [e | p] ps IH]; cbn; [reflexivity | exact IH | exact IH].
Qed.

Lemma resumed_no_flush_start (ps : list (Result ProcessedData)) :
  List.filter isFlushStart (resumed ps) = [].
Proof.
  unfold resumed. destruct (promiseAll ps) as [e | l]; [reflexivity |].
  destruct (Nat.ltb 0 (length (checkForAlerts l))); reflexivity.
Qed.

Lemma isFlushStart_batch_log (rest : string) :
  isFlushStart (LogInfo ("Processing batch of " ++ rest)) = true.
Proof. destruct rest; reflexivity. Qed.

(** The state after the synchronous part of a flush that does run. *)
Lemma processQueue_runs (h : Host) (now : Z) (s : State) :
  isProcessing s = false ->
  processingQueue s <> [] ->
  let batch := take (batchSize s) (processingQueue s) in
  let s' := processQueue h now s in
  processingQueue s' = drop (batchSize s) (processingQueue s)
  /\ awaiting s' = Some (map (processSensorReading h now) batch)
  /\ (batch ++ processingQueue s')%list = processingQueue s
  /\ length batch = Nat.min (batchSize s) (length (processingQueue s))
  /\ isProcessing s' = true
  /\ batchSize s' = batchSize s
  /\ flushCount s' = S (flushCount s)
  /\ outputs s'
     = (outputs s
        ++ [LogInfo ("Processing batch of " ++ pretty (length batch) ++ " sensor readings")]
        ++ concat (map rejectionLog (map (processSensorReading h now) batch)))%list.
Proof.
  intros Hidle Hne.
  assert (Hlen : Nat.eqb (length (processingQueue s)) 0 = false)
    by (destruct (processingQueue s); [contradiction | reflexivity]).
  unfold processQueue. rewrite Hidle, Hlen.
  cbn [orb]. cbv zeta. cbn [processingQueue awaiting isProcessing batchSize outputs].
  repeat split.
  - apply take_drop.
  - apply length_take.
  - unfold flushCount. cbn [outputs].
    rewrite !List.filter_app, rejectionLog_no_flush_start, app_nil_r.
    rewrite length_app. cbn [List.filter].
    rewrite isFlushStart_batch_log. cbn [length]. lia.
Qed.

(** A flush request while another flush is in flight does nothing. *)
Lemma processQueue_busy (h : Host) (now : Z) (s : State) :
  isProcessing s = true -> processQueue h now s = s.
Proof.
  intros Hbusy. unfold processQueue. rewrite Hbusy. reflexivity.
Qed.

(** C4 (as the code has it): a flush is all or nothing.  The batch leaves the
    queue and the flag is cleared either way.  If some reading of the batch
    is rejected, the error is logged, the batch-level handler logs the first
    rejection and no event at all is emitted for the batch; only when every
    reading is processed is the whole batch emitted. *)
Theorem flush_is_all_or_nothing (h : Host) (now : Z) (s : State) :
  isProcessing s = false ->
  processingQueue s <> [] ->
  let batch := take (batchSize s) (processingQueue s) in
  let s' := resume (processQueue h now s) in
  processingQueue s' = drop (batchSize s) (processingQueue s)
  /\ isProcessing s' = false
  /\ awaiting s' = None
  /\ exists new,
       outputs s' = (outputs s ++ new)%list
       /\ ((exists r e, In r batch /\ processSensorReading h now r = inl e) ->
           Forall (fun o => isEmit o = false) new
           /\ exists r e,
                In r batch /\ processSensorReading h now r = inl e
                /\ In (LogError "Error processing sensor reading:" e) new
                /\ In (LogError "Error processing sensor readings batch:" e) new)
       /\ (forall ps,
             map (processSensorReading h now) batch = map inr ps ->
             In (EmitDataProcessed ps) new
             /\ length ps = length batch).
Proof.
  intros Hidle Hne batch s'.
  destruct (processQueue_runs h now s Hidle Hne)
    as (Hq & Haw & _ & _ & _ & _ & _ & Hout).
  fold batch in Haw, Hout.
  subst s'. unfold resume. rewrite Haw.
  cbn [processingQueue isProcessing awaiting outputs].
  split; [exact Hq |]. split; [reflexivity |]. split; [reflexivity |].
  set (promises := map (processSensorReading h now) batch) in *.
  exists (LogInfo ("Processing batch of " ++ pretty (length batch) ++ " sensor readings")
            :: concat (map rejectionLog promises) ++ resumed promises)%list.
  split; [rewrite Hout, <- !app_assoc; reflexivity |].
  split.
  - intros (r & e & Hr & He).
    assert (Hrej : exists e, In (inl e) promises).
    { exists e. rewrite <- He. apply in_map. exact Hr. }
    apply promiseAll_rejected in Hrej as (e1 & Hall & Hin1).
    unfold resumed. rewrite Hall. split.
    + constructor; [reflexivity |]. apply Forall_app. split.
      * apply rejectionLog_no_emit.
      * constructor; [reflexivity | constructor].
    + apply in_map_iff in Hin1 as (r1 & Hr1 & Hin1).
      exists r1, e1. split; [exact Hin1 |]. split; [exact Hr1 |]. split.
      * right. apply in_or_app. left. apply in_concat.
        exists [LogError "Error processing sensor reading:" e1]. split.
        -- apply in_map_iff. exists (inl e1). split; [reflexivity |].
           rewrite <- Hr1. apply in_map. exact Hin1.
        -- left. reflexivity.
      * right. apply in_or_app. right. left. reflexivity.
  - intros ps Hps. split.
    + right. apply in_or_app. right. unfold resumed.
      rewrite (proj2 (promiseAll_fulfilled promises ps) Hps). left. reflexivity.
    + apply (f_equal (@length _)) in Hps. unfold promises in Hps.
      rewrite !length_map in Hps. lia.
Qed.

Lemma flush_is_all_or_nothing_witness :
  let s := run Iso8601.host
             [(Examples.noon, AddToQueue Examples.temp001);
              (Examples.noon, AddToQueue Examples.pressure1100)] init in
  processingQueue (resume (processQueue Iso8601.host Examples.noon s)) = []
  /\ isProcessing (resume (processQueue Iso8601.host Examples.noon s)) = false.
Proof.
  intros s.
  destruct (flush_is_all_or_nothing Iso8601.host Examples.noon s)
    as (Hq & Hflag & _); [reflexivity | discriminate |].
  split; [exact Hq | exact Hflag].
Defined.

(** C4 (as stated) fails: a humidity of 200 and a valid temperature reading
    are flushed together; the temperature reading on its own is processed,
    yet the flush emits nothing and both readings are gone from the queue. *)
Lemma rejected_reading_voids_the_batch :
  let s := run Iso8601.host
             [(Examples.noon, AddToQueue Examples.hum001Bad);
              (Examples.noon, AddToQueue Examples.temp001);
              (Examples.noon + 5000, TimerFired);
              (Examples.noon + 5000, Resumed)] init in
  (exists p, processSensorReading Iso8601.host (Examples.noon + 5000) Examples.temp001
             = inr p)
  /\ processingQueue s = []
  /\ outputs s
     = [ LogInfo "Processing batch of 2 sensor readings";
         LogError "Error processing sensor reading:" (Error "Invalid humidity value");
         LogError "Error processing sensor readings batch:"
           (Error "Invalid humidity value") ].
Proof.
  cbv zeta. split; [eexists; reflexivity |].
  split; vm_compute; reflexivity.
Qed.

(** *** Enqueueing *)

Lemma addToQueue_below (h : Host) (now : Z) (r : SensorReading) (s : State) :
  (length (processingQueue s ++ [r]) < batchSize s)%nat ->
  addToQueue h now r s = push r s.
Proof.
  intros Hlt. unfold addToQueue. cbn [batchSize processingQueue push].
  destruct (Nat.leb_spec (batchSize s) (length (processingQueue s ++ [r])));
    [lia | reflexivity].
Qed.

Lemma addToQueue_busy (h : Host) (now : Z) (r : SensorReading) (s : State) :
  isProcessing s = true -> addToQueue h now r s = push r s.
Proof.
  intros Hbusy. unfold addToQueue.
  destruct (Nat.leb _ _); [| reflexivity].
  apply processQueue_busy. exact Hbusy.
Qed.

Lemma addToQueue_reached (h : Host) (now : Z) (r : SensorReading) (s : State) :
  (batchSize s <= length (processingQueue s ++ [r]))%nat ->
  addToQueue h now r s = processQueue h now (push r s).
Proof.
  intros Hle. unfold addToQueue. cbn [batchSize processingQueue push].
  destruct (Nat.leb_spec (batchSize s) (length (processingQueue s ++ [r])));
    [reflexivity | lia].
Qed.

Lemma processQueue_batchSize (h : Host) (now : Z) (s : State) :
  batchSize (processQueue h now s) = batchSize s.
Proof.
  unfold processQueue. destruct (_ || _); reflexivity.
Qed.

Lemma addToQueue_batchSize (h : Host) (now : Z) (r : SensorReading) (s : State) :
  batchSize (addToQueue h now r s) = batchSize s.
Proof.
  unfold addToQueue. destruct (Nat.leb _ _); [| reflexivity].
  rewrite processQueue_batchSize. reflexivity.
Qed.

Lemma run_cons (h : Host) (e : Z * Event) (es : list (Z * Event)) (s : State) :
  run h (e :: es) s = run h es (step h s e).
Proof. reflexivity. Qed.

Lemma added_cons_add (now : Z) (r : SensorReading) (es : list (Z * Event)) :
  added ((now, AddToQueue r) :: es) = r :: added es.
Proof. reflexivity. Qed.

Lemma added_cons_resumed (now : Z) (es : list (Z * Event)) :
  added ((now, Resumed) :: es) = added es.
Proof. reflexivity. Qed.

(** The states reached from an idle, empty processor of batch size [b] by
    enqueueing the readings [rs], fewer than [2 * b] of them, with the
    resumption of the flush anywhere in between and no tick of the timer:
    nothing has been flushed before the [b]-th reading, and exactly the first
    [b] readings have been flushed, once, from then on. *)
Lemma run_without_timer (h : Host) (b : nat) (es : list (Z * Event)) :
  (1 <= b)%nat ->
  Forall (fun e => isTimer e = false) es ->
  forall (s : State) (rs : list SensorReading),
    (length rs + length (added es) < 2 * b)%nat ->
    batchSize s = b ->
    ((length rs < b)%nat /\ processingQueue s = rs
       /\ isProcessing s = false /\ flushCount s = 0%nat
     \/ (b <= length rs)%nat /\ processingQueue s = drop b rs
        /\ flushCount s = 1%nat) ->
    let s' := run h es s in
    let rs' := (rs ++ added es)%list in
    batchSize s' = b
    /\ ((length rs' < b)%nat /\ processingQueue s' = rs'
          /\ isProcessing s' = false /\ flushCount s' = 0%nat
        \/ (b <= length rs')%nat /\ processingQueue s' = drop b rs'
           /\ flushCount s' = 1%nat).
Proof.
  intros Hb Hes. induction Hes as [| [now e] es Hnt Hes IH]; intros s rs Hlen Hbs Hinv.
  - cbn. rewrite app_nil_r. split; assumption.
  - destruct e as [r | |]; [| discriminate |].
    + (* addToQueue *)
      rewrite run_cons, added_cons_add in *. cbn [step].
      cbn [length] in Hlen.
      replace (rs ++ r :: added es)%list with ((rs ++ [r]) ++ added es)%list
        by (rewrite <- app_assoc; reflexivity).
      apply IH.
      * rewrite length_app. cbn [length]. lia.
      * rewrite addToQueue_batchSize. exact Hbs.
      * destruct Hinv as [(Hlt & Hq & Hflag & Hfc) | (Hle & Hq & Hfc)].
        -- destruct (Nat.le_gt_cases b (length (rs ++ [r]))) as [Hreach | Hbelow].
           ++ right. split; [exact Hreach |].
              rewrite addToQueue_reached by (rewrite Hbs, Hq; exact Hreach).
              destruct (processQueue_runs h now (push r s)) as
                (Hq' & _ & _ & _ & _ & _ & Hfc' & _);
                [exact Hflag
                | cbn [processingQueue push]; destruct (processingQueue s); discriminate |].
              cbn [processingQueue push batchSize] in Hq'.
              rewrite Hq', Hfc', Hbs, Hq. split; [reflexivity |].
              unfold flushCount in *. cbn [outputs push]. rewrite Hfc. reflexivity.
           ++ left. split; [exact Hbelow |].
              rewrite addToQueue_below by (rewrite Hbs, Hq; exact Hbelow).
              cbn [processingQueue push isProcessing]. rewrite Hq.
              repeat split; assumption.
        -- right. rewrite length_app. cbn [length]. split; [lia |].
           rewrite addToQueue_below.
           ++ cbn [processingQueue push]. rewrite Hq.
              split; [| exact Hfc]. rewrite drop_app_le by exact Hle. reflexivity.
           ++ rewrite Hbs, Hq, length_app, length_drop. cbn [length]. lia.
    + (* the suspended flush resumes *)
      rewrite run_cons, added_cons_resumed in *. cbn [step].
      apply IH; [exact Hlen | |].
      * unfold resume. destruct (awaiting s); exact Hbs.
      * assert (Hfc : flushCount (resume s) = flushCount s).
        { unfold resume, flushCount. destruct (awaiting s); [| reflexivity].
          cbn [outputs]. rewrite List.filter_app, resumed_no_flush_start, app_nil_r.
          reflexivity. }
        assert (Hq : processingQueue (resume s) = processingQueue s)
          by (unfold resume; destruct (awaiting s); reflexivity).
        rewrite Hfc, Hq.
        destruct Hinv as [(Hlt & Hq0 & Hflag & Hfc0) | (Hle & Hq0 & Hfc0)].
        -- left. repeat split; try assumption.
           unfold resume. destruct (awaiting s); [reflexivity | exact Hflag].
        -- right. repeat split; assumption.
Qed.

(** C5: [addToQueue] appends the reading; below the batch size nothing else
    happens; once the length reaches the batch size a flush is requested,
    which does nothing while another flush is in flight and otherwise takes
    the [min b (length queue)] oldest readings, in their order, as the batch
    and leaves the rest, as does every flush that runs.  With a batch size of 3, five enqueued readings and
    no tick of the timer, exactly one flush starts, on the third reading, and
    the last two readings stay queued. *)
Theorem addToQueue_flush_policy (h : Host) (now : Z) (r : SensorReading) (s : State) :
  let q := (processingQueue s ++ [r])%list in
  ((length q < batchSize s)%nat ->
   addToQueue h now r s = push r s /\ flushCount (addToQueue h now r s) = flushCount s)
  /\ ((batchSize s <= length q)%nat ->
      addToQueue h now r s = processQueue h now (push r s))
  /\ ((batchSize s <= length q)%nat -> isProcessing s = true ->
      addToQueue h now r s = push r s)
  /\ ((batchSize s <= length q)%nat -> isProcessing s = false ->
      let batch := take (batchSize s) q in
      let s' := addToQueue h now r s in
      processingQueue s' = drop (batchSize s) q
      /\ (batch ++ processingQueue s')%list = q
      /\ length batch = Nat.min (batchSize s) (length q)
      /\ awaiting s' = Some (map (processSensorReading h now) batch)
      /\ isProcessing s' = true
      /\ flushCount s' = S (flushCount s))
  /\ (forall s0 : State,
        isProcessing s0 = false -> processingQueue s0 <> [] ->
        let batch := take (batchSize s0) (processingQueue s0) in
        processingQueue (processQueue h now s0)
        = drop (batchSize s0) (processingQueue s0)
        /\ (batch ++ processingQueue (processQueue h now s0))%list = processingQueue s0
        /\ length batch = Nat.min (batchSize s0) (length (processingQueue s0))
        /\ awaiting (processQueue h now s0)
           = Some (map (processSensorReading h now) batch))
  /\ (forall (es : list (Z * Event)) (r1 r2 r3 r4 r5 : SensorReading),
        Forall (fun e => isTimer e = false) es ->
        added es = [r1; r2; r3; r4; r5] ->
        let s' := run h es (withBatchSize 3 init) in
        processingQueue s' = [r4; r5]
        /\ flushCount s' = 1%nat
        /\ forall s3,
             s3 = run h [(now, AddToQueue r1); (now, AddToQueue r2)]
                    (withBatchSize 3 init) ->
             flushCount s3 = 0%nat
             /\ flushCount (addToQueue h now r3 s3) = 1%nat
             /\ awaiting (addToQueue h now r3 s3)
                = Some (map (processSensorReading h now) [r1; r2; r3])).
Proof.
  intros q. split; [| split; [| split; [| split; [| split]]]].
  - intros Hlt. rewrite addToQueue_below by exact Hlt. split; reflexivity.
  - intros Hle. apply addToQueue_reached. exact Hle.
  - intros _ Hbusy. apply addToQueue_busy. exact Hbusy.
  - intros Hle Hidle batch s'. subst s'.
    rewrite addToQueue_reached by exact Hle.
    destruct (processQueue_runs h now (push r s)) as
      (Hq & Haw & Happ & Hlen & Hflag & _ & Hfc & _);
      [exact Hidle
      | cbn [processingQueue push]; destruct (processingQueue s); discriminate |].
    cbn [processingQueue push batchSize] in *.
    repeat split; assumption.
  - intros s0 Hidle Hne batch.
    destruct (processQueue_runs h now s0 Hidle Hne) as (Hq & Haw & Happ & Hlen & _).
    repeat split; assumption.
  - intros es r1 r2 r3 r4 r5 Hes Hadded s'.
    destruct (run_without_timer h 3 es (le_S _ _ (le_S _ _ (le_n 1))) Hes
                (withBatchSize 3 init) [])
      as (_ & [(Hlt & _) | (_ & Hq & Hfc)]).
    + rewrite Hadded. cbn. lia.
    + reflexivity.
    + left. repeat split. cbn. lia.
    + rewrite Hadded in Hlt. cbn in Hlt. lia.
    + subst s'. rewrite Hq, Hfc, Hadded. split; [reflexivity |].
      split; [reflexivity |].
      intros s3 ->. split; [reflexivity |].
      set (s2 := run h [(now, AddToQueue r1); (now, AddToQueue r2)]
                   (withBatchSize 3 init)).
      rewrite (addToQueue_reached h now r3 s2) by (cbn; lia).
      destruct (processQueue_runs h now (push r3 s2)) as
        (_ & Haw & _ & _ & _ & _ & Hfc3 & _); [reflexivity | discriminate |].
      split; [exact Hfc3 | exact Haw].
Qed.

Lemma addToQueue_flush_policy_witness :
  let es := [(Examples.noon, AddToQueue Examples.temp001);
             (Examples.noon, AddToQueue Examples.pressure1100);
             (Examples.noon, AddToQueue Examples.pressure900);
             (Examples.noon, Resumed);
             (Examples.noon + 1, AddToQueue Examples.temp001Zero);
             (Examples.noon + 2, AddToQueue Examples.temp001Ahead)] in
  processingQueue (run Iso8601.host es (withBatchSize 3 init))
  = [Examples.temp001Zero; Examples.temp001Ahead]
  /\ flushCount (run Iso8601.host es (withBatchSize 3 init)) = 1%nat.
Proof.
  intros es.
  destruct (proj2 (proj2 (proj2 (proj2 (proj2
              (addToQueue_flush_policy Iso8601.host Examples.noon
                 Examples.temp001 init)))))
              es Examples.temp001 Examples.pressure1100 Examples.pressure900
              Examples.temp001Zero Examples.temp001Ahead)
    as (Hq & Hfc & _).
  - repeat constructor.
  - reflexivity.
  - split; [exact Hq | exact Hfc].
Defined.

End Batching.

(** ** Order of binary64 numbers *)

Module FloatOrder.

Lemma SFcompare_antisym (a b : spec_float) (c : comparison) :
  SFcompare a b = Some c -> SFcompare b a = Some (CompOpp c).
Proof.
  destruct a as [sa | sa | | sa ma ea], b as [sb | sb | | sb mb eb]; cbn;
    try discriminate;
    try (destruct sa; intros [= <-]; reflexivity);
    try (destruct sb; intros [= <-]; reflexivity);
    try (destruct sa, sb; intros [= <-]; reflexivity).
  change (Pos.compare_cont Eq ma mb) with (Pos.compare ma mb).
  change (Pos.compare_cont Eq mb ma) with (Pos.compare mb ma).
  rewrite (BinInt.Z.compare_antisym ea eb), (BinPos.Pos.compare_antisym ma mb).
  destruct sa, sb, (Z.compare ea eb), (Pos.compare ma mb); cbn;
    intros [= <-]; reflexivity.
Qed.

Lemma SFcompare_None (a b : spec_float) :
  SFcompare a b = None <-> a = S754_nan \/ b = S754_nan.
Proof.
  destruct a as [sa | sa | | sa ma ea], b as [sb | sb | | sb mb eb]; cbn;
    split; intros H; try discriminate; auto;
    try (destruct H; discriminate).
Qed.

Lemma SFcompare_refl (a : spec_float) :
  a <> S754_nan -> SFcompare a a = Some Eq.
Proof.
  destruct a as [sa | sa | | sa ma ea]; cbn; intros H;
    try reflexivity; try congruence.
  - destruct sa; reflexivity.
  - change (Pos.compare_cont Eq ma ma) with (Pos.compare ma ma).
    destruct sa; rewrite BinInt.Z.compare_refl, BinPos.Pos.compare_refl; reflexivity.
Qed.

Lemma is_nan_Prim2SF (x : float) : is_nan x = true <-> Prim2SF x = S754_nan.
Proof.
  unfold is_nan. rewrite FloatAxioms.eqb_spec. unfold SFeqb. split.
  - intros H. destruct (Prim2SF x) eqn:E; try reflexivity;
      rewrite SFcompare_refl in H by discriminate; discriminate.
  - intros ->. reflexivity.
Qed.

(** [c <= x] excludes [x < c]. *)
Lemma leb_not_ltb (x y : float) :
  PrimFloat.leb x y = true -> PrimFloat.ltb y x = false.
Proof.
  rewrite FloatAxioms.leb_spec, FloatAxioms.ltb_spec. unfold SFleb, SFltb.
  destruct (SFcompare (Prim2SF x) (Prim2SF y)) as [c |] eqn:H; [| discriminate].
  rewrite (SFcompare_antisym _ _ _ H). destruct c; cbn; congruence.
Qed.

(** Away from NaN the order is total. *)
Lemma not_ltb_leb (x y : float) :
  is_nan x = false -> is_nan y = false ->
  PrimFloat.ltb x y = false -> PrimFloat.leb y x = true.
Proof.
  intros Hx Hy. rewrite FloatAxioms.leb_spec, FloatAxioms.ltb_spec. unfold SFleb, SFltb.
  destruct (SFcompare (Prim2SF x) (Prim2SF y)) as [c |] eqn:H.
  - rewrite (SFcompare_antisym _ _ _ H). destruct c; cbn; congruence.
  - apply SFcompare_None in H.
    destruct H as [H | H]; apply is_nan_Prim2SF in H; congruence.
Qed.

(** Every comparison with NaN is false. *)
Lemma ltb_nan_l (x y : float) : is_nan x = true -> PrimFloat.ltb x y = false.
Proof.
  intros H. apply is_nan_Prim2SF in H. rewrite FloatAxioms.ltb_spec, H. reflexivity.
Qed.

Lemma ltb_nan_r (x y : float) : is_nan y = true -> PrimFloat.ltb x y = false.
Proof.
  intros H. apply is_nan_Prim2SF in H. rewrite FloatAxioms.ltb_spec, H. unfold SFltb.
  destruct (Prim2SF x); reflexivity.
Qed.

Lemma leb_nan_r (x y : float) : is_nan y = true -> PrimFloat.leb x y = false.
Proof.
  intros H. apply is_nan_Prim2SF in H. rewrite FloatAxioms.leb_spec, H. unfold SFleb.
  destruct (Prim2SF x); reflexivity.
Qed.

(** A truthy number is not NaN. *)
Lemma truthy_not_nan (x : float) : truthy (VNum x) = true -> is_nan x = false.
Proof.
  cbn. destruct (PrimFloat.eqb x 0), (is_nan x); cbn; congruence.
Qed.

End FloatOrder.

(** ** The three validators compared *)

Module Validators.

Import DataProcessor.

Lemma present_not_missing (s : option string) :
  truthy (ofString s) = true -> missing s = false.
Proof.
  destruct s as [x |]; [| discriminate]. unfold missing. cbn.
  destruct x; [discriminate | reflexivity].
Qed.

Lemma not_missing_present (s : option string) :
  missing s = false -> truthy (ofString s) = true.
Proof.
  unfold missing. destruct (truthy (ofString s)); [reflexivity | discriminate].
Qed.

Lemma isType_exclusive (r : SensorReading) (a b : string) :
  isType r a = true -> isType r b = true -> a = b.
Proof.
  unfold isType. destruct (sensorType r) as [s |]; [| discriminate].
  intros Ha Hb. apply String.eqb_eq in Ha, Hb. congruence.
Qed.

Lemma isType_other (r : SensorReading) (a b : string) :
  isType r a = true -> a <> b -> isType r b = false.
Proof.
  intros Ha Hne. destruct (isType r b) eqn:Hb; [| reflexivity].
  elim Hne. exact (isType_exclusive r a b Ha Hb).
Qed.

(** The range test of the collector implies that of the processor. *)
Lemma range_accepted (v : JsValue) (lo hi : float) :
  isNumber v && SensorDataCollector.numGe v lo && SensorDataCollector.numLe v hi = true ->
  negb (isNumber v) || numLt v lo || numGt v hi = false.
Proof.
  destruct v; cbn; try discriminate.
  intros H. apply andb_true_iff in H as [Hlo Hhi].
  rewrite (FloatOrder.leb_not_ltb _ _ Hlo), (FloatOrder.leb_not_ltb _ _ Hhi).
  reflexivity.
Qed.

(** Conversely for a truthy value and bounds that are numbers. *)
Lemma range_accepted_inv (v : JsValue) (lo hi : float) :
  is_nan lo = false -> is_nan hi = false ->
  truthy v = true ->
  negb (isNumber v) || numLt v lo || numGt v hi = false ->
  isNumber v && SensorDataCollector.numGe v lo && SensorDataCollector.numLe v hi = true.
Proof.
  intros Hlo Hhi. destruct v; cbn; try discriminate.
  intros Ht H. apply orb_false_iff in H as [Hl Hh].
  change (truthy (VNum x) = true) in Ht. apply FloatOrder.truthy_not_nan in Ht.
  rewrite (FloatOrder.not_ltb_leb _ _ Ht Hlo Hl), (FloatOrder.not_ltb_leb _ _ Hhi Ht Hh).
  reflexivity.
Qed.

(** X4: whatever the collector's [validateSensorReading] accepts, the
    processor's [validateReading] accepts too. *)
Theorem collector_accepted_is_processor_accepted (r : SensorReading) :
  SensorDataCollector.validateSensorReading r = true ->
  validateReading r = inr tt.
Proof.
  unfold SensorDataCollector.validateSensorReading, SensorDataCollector.requiredFields.
  cbn [forallb]. intros H.
  destruct (truthy (ofString (sensorId r))) eqn:Hid; [| discriminate].
  destruct (truthy (ofString (sensorType r))) eqn:Hty; [| discriminate].
  destruct (truthy (value r)) eqn:Hval; [| discriminate].
  destruct (truthy (ofString (timestamp r))) eqn:Hts; [| discriminate].
  cbn [andb negb] in H.
  unfold validateReading.
  rewrite (present_not_missing _ Hid), (present_not_missing _ Hty), Hts.
  cbn [negb].
  assert (Hnn : match value r with VNull | VUndefined => true | _ => false end = false)
    by (destruct (value r); try reflexivity; discriminate).
  rewrite Hnn.
  unfold SensorDataCollector.isType, SensorDataCollector.isNumber,
    SensorDataCollector.isObject in H.
  destruct (isType r "temperature") eqn:T1;
    [rewrite (range_accepted _ _ _ H); reflexivity |].
  destruct (isType r "humidity") eqn:T2;
    [rewrite (range_accepted _ _ _ H); reflexivity |].
  destruct (isType r "pressure") eqn:T3;
    [rewrite (range_accepted _ _ _ H); reflexivity |].
  destruct (isType r "light") eqn:T4;
    [rewrite (isType_other r "light" "location" T4) by discriminate; reflexivity |].
  destruct (isType r "vibration") eqn:T5;
    [rewrite (isType_other r "vibration" "location" T5) by discriminate; reflexivity |].
  destruct (isType r "location") eqn:T6; [| reflexivity].
  apply andb_true_iff in H as [H Hlon]. apply andb_true_iff in H as [Hobj Hlat].
  rewrite Hobj, Hlat, Hlon. reflexivity.
Qed.

Lemma collector_accepted_is_processor_accepted_witness :
  validateReading Examples.pressure1100 = inr tt.
Proof.
  apply (collector_accepted_is_processor_accepted Examples.pressure1100).
  reflexivity.
Defined.

(** On the four sensor types the processor checks, a reading it accepts
    with a truthy value is accepted by the collector. *)
Lemma processor_accepted_truthy_is_collector_accepted (r : SensorReading) :
  isType r "temperature" || isType r "humidity" || isType r "pressure"
    || isType r "location" = true ->
  validateReading r = inr tt ->
  truthy (value r) = true ->
  SensorDataCollector.validateSensorReading r = true.
Proof.
  intros Hty H Hval. unfold validateReading in H.
  destruct (missing (sensorId r)) eqn:Hid; [discriminate |].
  destruct (missing (sensorType r)) eqn:Hsty; [discriminate |].
  destruct (match value r with VNull | VUndefined => true | _ => false end);
    [discriminate |].
  destruct (truthy (ofString (timestamp r))) eqn:Hts; [| discriminate].
  cbn [negb] in H.
  unfold SensorDataCollector.validateSensorReading,
    SensorDataCollector.requiredFields,
    SensorDataCollector.isType, SensorDataCollector.isNumber,
    SensorDataCollector.isObject.
  cbn [forallb].
  rewrite (not_missing_present _ Hid), (not_missing_present _ Hsty), Hval, Hts.
  cbn [andb negb].
  destruct (isType r "temperature") eqn:T1.
  { apply range_accepted_inv; try reflexivity; try assumption.
    match type of H with
    | (if ?c then _ else _) = _ => destruct c; [discriminate H | reflexivity]
    end. }
  destruct (isType r "humidity") eqn:T2.
  { apply range_accepted_inv; try reflexivity; try assumption.
    match type of H with
    | (if ?c then _ else _) = _ => destruct c; [discriminate H | reflexivity]
    end. }
  destruct (isType r "pressure") eqn:T3.
  { apply range_accepted_inv; try reflexivity; try assumption.
    match type of H with
    | (if ?c then _ else _) = _ => destruct c; [discriminate H | reflexivity]
    end. }
  cbn [orb] in Hty.
  rewrite (isType_other r "location" "light" Hty) by discriminate.
  rewrite (isType_other r "location" "vibration" Hty) by discriminate.
  rewrite Hty in *.
  destruct (isObject (value r)); [| discriminate].
  destruct (isNumber (member (value r) "latitude")); [| discriminate].
  destruct (isNumber (member (value r) "longitude")); [| discriminate].
  reflexivity.
Qed.

Lemma collector_accepted_truthy (r : SensorReading) :
  SensorDataCollector.validateSensorReading r = true -> truthy (value r) = true.
Proof.
  unfold SensorDataCollector.validateSensorReading,
    SensorDataCollector.requiredFields. cbn [forallb]. intros H.
  destruct (truthy (value r)); [reflexivity |].
  rewrite !andb_false_r, ?andb_false_l in H. discriminate.
Qed.

(** X5: on the four sensor types the processor checks, the two validators
    differ exactly by the truthiness test of the value: the collector accepts
    a reading if and only if the processor accepts it and the value is truthy
    (not [0], not NaN). *)
Theorem collector_is_processor_on_truthy_values (r : SensorReading) :
  isType r "temperature" || isType r "humidity" || isType r "pressure"
    || isType r "location" = true ->
  (SensorDataCollector.validateSensorReading r = true
   <-> validateReading r = inr tt /\ truthy (value r) = true).
Proof.
  intros Hty. split.
  - intros H. split; [| apply collector_accepted_truthy; exact H].
    revert H. unfold SensorDataCollector.validateSensorReading,
      SensorDataCollector.requiredFields. cbn [forallb]. intros H.
    destruct (truthy (ofString (sensorId r))) eqn:Hid; [| discriminate].
    destruct (truthy (ofString (sensorType r))) eqn:Hsty; [| discriminate].
    destruct (truthy (value r)) eqn:Hval; [| discriminate].
    destruct (truthy (ofString (timestamp r))) eqn:Hts; [| discriminate].
    cbn [andb negb] in H. unfold validateReading.
    rewrite (present_not_missing _ Hid), (present_not_missing _ Hsty), Hts.
    cbn [negb].
    assert (Hnn : match value r with VNull | VUndefined => true | _ => false end
                  = false)
      by (destruct (value r); try reflexivity; discriminate).
    rewrite Hnn.
    unfold SensorDataCollector.isType, SensorDataCollector.isNumber,
      SensorDataCollector.isObject in H.
    destruct (isType r "temperature") eqn:T1;
      [rewrite (range_accepted _ _ _ H); reflexivity |].
    destruct (isType r "humidity") eqn:T2;
      [rewrite (range_accepted _ _ _ H); reflexivity |].
    destruct (isType r "pressure") eqn:T3;
      [rewrite (range_accepted _ _ _ H); reflexivity |].
    cbn [orb] in Hty.
    rewrite (isType_other r "location" "light" Hty) in H by discriminate.
    rewrite (isType_other r "location" "vibration" Hty) in H by discriminate.
    rewrite Hty in *.
    apply andb_true_iff in H as [H Hlon]. apply andb_true_iff in H as [Hobj Hlat].
    rewrite Hobj, Hlat, Hlon. reflexivity.
  - intros [H Hval].
    apply processor_accepted_truthy_is_collector_accepted; assumption.
Qed.

Lemma collector_is_processor_on_truthy_values_witness :
  validateReading Examples.temp001Zero = inr tt
  /\ truthy (value Examples.temp001Zero) = false
  /\ SensorDataCollector.validateSensorReading Examples.temp001Zero = false.
Proof.
  split; [reflexivity |]. split; [reflexivity |].
  destruct (SensorDataCollector.validateSensorReading Examples.temp001Zero) eqn:H;
    [| reflexivity].
  apply (collector_is_processor_on_truthy_values Examples.temp001Zero eq_refl) in H.
  destruct H as [_ H]. discriminate H.
Defined.

(** *** [SensorDataValidator] *)

(** The goal tests a condition that the hypothesis [H] has shown false. *)
Ltac conclude_from H :=
  cbv iota in H; cbv iota;
  match goal with
  | |- (if ?c then _ else _) = _ =>
      destruct c; [cbv iota in H; discriminate H | reflexivity]
  end.

Lemma validator_accepted_inv (h : Host) (r : SensorReading) :
  SensorDataValidator.validateSensorReading h r = SensorDataValidator.valid ->
  missing (sensorId r) = false
  /\ missing (sensorType r) = false
  /\ SensorDataValidator.nullish (value r) = false
  /\ truthy (ofString (timestamp r)) = true
  /\ SensorDataValidator.unparseable h (timestamp r) = false.
Proof.
  unfold SensorDataValidator.validateSensorReading, SensorDataValidator.missing.
  destruct (missing (sensorId r)); [discriminate |].
  destruct (missing (sensorType r)); [discriminate |].
  destruct (SensorDataValidator.nullish (value r)); [discriminate |].
  destruct (truthy (ofString (timestamp r))); [| discriminate].
  destruct (SensorDataValidator.unparseable h (timestamp r)); [discriminate |].
  intros _. repeat split.
Qed.

(** X3: [SensorDataValidator.validateSensorReading] is stricter than the
    processor's [validateReading]: a reading it accepts is accepted by the
    processor, its timestamp parses and its type is one of the six sensor
    types. *)
Theorem validator_accepted_is_processor_accepted (h : Host) (r : SensorReading) :
  SensorDataValidator.validateSensorReading h r = SensorDataValidator.valid ->
  validateReading r = inr tt
  /\ (exists t, timeOf h r = Some t)
  /\ In (sensorType r)
       (map Some ["temperature"; "humidity"; "pressure"; "light"; "vibration";
                  "location"]).
Proof.
  intros H.
  destruct (validator_accepted_inv h r H) as (Hid & Hsty & Hnn & Hts & Hparse).
  split; [| split].
  - revert H.
    unfold SensorDataValidator.validateSensorReading, SensorDataValidator.missing,
      SensorDataValidator.isType, SensorDataValidator.isNumber,
      SensorDataValidator.isObject, validateReading.
    pose proof Hnn as Hnn'. unfold SensorDataValidator.nullish in Hnn'.
    rewrite Hid, Hsty, Hnn, Hnn', Hts, Hparse. cbn [negb].
    unfold SensorDataValidator.valid, SensorDataValidator.invalid.
    destruct (isType r "temperature") eqn:T1;
      [intros H; conclude_from H |].
    destruct (isType r "humidity") eqn:T2;
      [intros H; conclude_from H |].
    destruct (isType r "pressure") eqn:T3;
      [intros H; conclude_from H |].
    destruct (isType r "light") eqn:T4;
      [rewrite (isType_other r "light" "location" T4) by discriminate; reflexivity |].
    destruct (isType r "vibration") eqn:T5;
      [rewrite (isType_other r "vibration" "location" T5) by discriminate;
       reflexivity |].
    destruct (isType r "location") eqn:T6; [| reflexivity].
    intros H. conclude_from H.
  - unfold timeOf. unfold SensorDataValidator.unparseable in Hparse.
    destruct (timestamp r) as [s |]; [| discriminate].
    destruct (Date_getTime h s) as [t |]; [eauto | discriminate].
  - revert H.
    unfold SensorDataValidator.validateSensorReading, SensorDataValidator.missing,
      SensorDataValidator.isType.
    rewrite Hid, Hsty, Hnn, Hts, Hparse. cbn [negb].
    unfold isType. destruct (sensorType r) as [s |]; [| discriminate].
    cbn [map In].
    destruct (String.eqb_spec s "temperature"); [subst; auto |].
    destruct (String.eqb_spec s "humidity"); [subst; auto |].
    destruct (String.eqb_spec s "pressure"); [subst; auto |].
    destruct (String.eqb_spec s "light"); [subst; auto 10 |].
    destruct (String.eqb_spec s "vibration"); [subst; auto 10 |].
    destruct (String.eqb_spec s "location"); [subst; auto 10 |].
    discriminate.
Qed.

Lemma validator_accepted_is_processor_accepted_witness :
  validateReading Examples.temp001 = inr tt
  /\ exists t, timeOf Iso8601.host Examples.temp001 = Some t.
Proof.
  destruct (validator_accepted_is_processor_accepted Iso8601.host Examples.temp001)
    as (Hv & Ht & _); [vm_compute; reflexivity |].
  split; [exact Hv | exact Ht].
Defined.

(** The one-sided range test of light and vibration. *)
Lemma floor_accepted_inv (v : JsValue) (lo : float) :
  is_nan lo = false ->
  truthy v = true ->
  negb (isNumber v) || numLt v lo = false ->
  isNumber v && SensorDataCollector.numGe v lo = true.
Proof.
  intros Hlo. destruct v; cbn; try discriminate.
  intros Ht Hl.
  change (truthy (VNum x) = true) in Ht. apply FloatOrder.truthy_not_nan in Ht.
  exact (FloatOrder.not_ltb_leb _ _ Ht Hlo Hl).
Qed.

(** X23: a reading accepted by [SensorDataValidator.validateSensorReading] is
    refused by the collector only for a falsy value: with a truthy value it
    is accepted by the collector's [validateSensorReading]. *)
Theorem validator_accepted_truthy_is_collector_accepted
  (h : Host) (r : SensorReading) :
  SensorDataValidator.validateSensorReading h r = SensorDataValidator.valid ->
  (SensorDataCollector.validateSensorReading r = true <-> truthy (value r) = true).
Proof.
  intros H. split; [apply collector_accepted_truthy |]. intros Hval.
  destruct (validator_accepted_inv h r H) as (Hid & Hsty & Hnn & Hts & Hparse).
  revert H.
  unfold SensorDataValidator.validateSensorReading, SensorDataValidator.missing,
    SensorDataValidator.isType, SensorDataValidator.isNumber,
    SensorDataValidator.isObject.
  rewrite Hid, Hsty, Hnn, Hts, Hparse. cbn [negb].
  unfold SensorDataValidator.valid, SensorDataValidator.invalid.
  unfold SensorDataCollector.validateSensorReading,
    SensorDataCollector.requiredFields,
    SensorDataCollector.isType, SensorDataCollector.isNumber,
    SensorDataCollector.isObject.
  cbn [forallb].
  rewrite (not_missing_present _ Hid), (not_missing_present _ Hsty), Hval, Hts.
  cbn [andb negb].
  destruct (isType r "temperature") eqn:T1.
  { intros H. apply range_accepted_inv; try reflexivity; try assumption.
    match type of H with
    | (if ?c then _ else _) = _ => destruct c; [discriminate H | reflexivity]
    end. }
  destruct (isType r "humidity") eqn:T2.
  { intros H. apply range_accepted_inv; try reflexivity; try assumption.
    match type of H with
    | (if ?c then _ else _) = _ => destruct c; [discriminate H | reflexivity]
    end. }
  destruct (isType r "pressure") eqn:T3.
  { intros H. apply range_accepted_inv; try reflexivity; try assumption.
    match type of H with
    | (if ?c then _ else _) = _ => destruct c; [discriminate H | reflexivity]
    end. }
  destruct (isType r "light") eqn:T4.
  { intros H. apply floor_accepted_inv; try reflexivity; try assumption.
    match type of H with
    | (if ?c then _ else _) = _ => destruct c; [discriminate H | reflexivity]
    end. }
  destruct (isType r "vibration") eqn:T5.
  { intros H. apply floor_accepted_inv; try reflexivity; try assumption.
    match type of H with
    | (if ?c then _ else _) = _ => destruct c; [discriminate H | reflexivity]
    end. }
  destruct (isType r "location") eqn:T6; [| discriminate].
  destruct (isObject (value r)); [| discriminate].
  destruct (isNumber (member (value r) "latitude")); [| discriminate].
  destruct (isNumber (member (value r) "longitude")); [| discriminate].
  reflexivity.
Qed.

Lemma validator_accepted_truthy_is_collector_accepted_witness :
  SensorDataValidator.validateSensorReading Iso8601.host Examples.temp001Zero
    = SensorDataValidator.valid
  /\ SensorDataCollector.validateSensorReading Examples.temp001Zero = false.
Proof.
  split; [vm_compute; reflexivity |].
  destruct (SensorDataCollector.validateSensorReading Examples.temp001Zero) eqn:H;
    [| reflexivity].
  apply (validator_accepted_truthy_is_collector_accepted Iso8601.host
           Examples.temp001Zero) in H; [discriminate H | vm_compute; reflexivity].
Defined.

(** X19: the range tests of the processor are all false on NaN.  Replacing
    the value of a reading that [validateReading] accepts by NaN keeps it
    accepted, unless it is a location; the collector refuses it. *)
Theorem nan_value_passes_processor_validation (r : SensorReading) (x : float) :
  validateReading r = inr tt ->
  isType r "location" = false ->
  is_nan x = true ->
  validateReading (withValue (VNum x) r) = inr tt
  /\ SensorDataCollector.validateSensorReading (withValue (VNum x) r) = false.
Proof.
  intros H Hloc Hnan. split.
  - revert H. unfold validateReading.
    change (isType (withValue (VNum x) r)) with (isType r).
    cbn [sensorId sensorType timestamp value withValue].
    destruct (missing (sensorId r)); [discriminate |].
    destruct (missing (sensorType r)); [discriminate |].
    destruct (match value r with VNull | VUndefined => true | _ => false end);
      [discriminate |].
    destruct (negb (truthy (ofString (timestamp r)))); [discriminate |].
    intros _. cbn [isNumber typeof String.eqb numLt numGt].
    rewrite !(FloatOrder.ltb_nan_l x) by exact Hnan.
    rewrite !(FloatOrder.ltb_nan_r _ x) by exact Hnan.
    rewrite Hloc.
    destruct (isType r "temperature"), (isType r "humidity"), (isType r "pressure");
      reflexivity.
  - unfold SensorDataCollector.validateSensorReading,
      SensorDataCollector.requiredFields.
    cbn [forallb value withValue truthy]. rewrite Hnan.
    rewrite orb_true_r. cbn [negb]. rewrite !andb_false_r, ?andb_false_l.
    reflexivity.
Qed.

Lemma nan_value_passes_processor_validation_witness :
  validateReading (withValue (VNum nan) Examples.temp001) = inr tt.
Proof.
  apply (nan_value_passes_processor_validation Examples.temp001 nan);
    reflexivity.
Defined.

End Validators.

(** ** The checks of [SensorDataValidator] on single fields *)

Module FieldChecks.

Import SensorDataValidator.

(** X1: [validateTimestamp] accepts a timestamp exactly when it parses to an
    instant between 30 days before and 1 hour after the clock; later
    instants are refused with the reason about the future, earlier ones with
    the reason about the past, and a timestamp that is absent, empty or
    does not parse is refused with a reason of its own. *)
Theorem validateTimestamp_window (h : Host) (now : Z) :
  (forall s t,
     s <> "" -> Date_getTime h s = Some t ->
     (validateTimestamp h now (Some s) = valid
      <-> now - 2592000000 <= t <= now + 3600000)
     /\ (now + 3600000 < t ->
         validateTimestamp h now (Some s)
         = invalid "Timestamp cannot be more than 1 hour in the future")
     /\ (t < now - 2592000000 ->
         validateTimestamp h now (Some s)
         = invalid "Timestamp cannot be more than 30 days in the past"))
  /\ (forall s,
        s <> "" -> Date_getTime h s = None ->
        validateTimestamp h now (Some s) = invalid "Invalid timestamp format")
  /\ validateTimestamp h now None = invalid "Timestamp is required"
  /\ validateTimestamp h now (Some "") = invalid "Timestamp is required".
Proof.
  split; [| split; [| split; reflexivity]].
  - intros s t Hs Ht. unfold validateTimestamp.
    rewrite (Validation.truthy_nonempty s Hs), Ht. cbn [negb].
    destruct (Z.ltb_spec 3600000 (t - now)) as [Hf | Hf].
    + split; [| split].
      * split; [discriminate | lia].
      * reflexivity.
      * lia.
    + destruct (Z.ltb_spec (t - now) (-2592000000)) as [Hp | Hp].
      * split; [| split].
        -- split; [discriminate | lia].
        -- lia.
        -- reflexivity.
      * split; [| split].
        -- split; [lia | reflexivity].
        -- lia.
        -- lia.
  - intros s Hs Ht. unfold validateTimestamp.
    rewrite (Validation.truthy_nonempty s Hs), Ht. reflexivity.
Qed.

Lemma validateTimestamp_window_witness :
  validateTimestamp Iso8601.host Examples.noon (Some "2026-11-02T14:00:00.000Z")
  = invalid "Timestamp cannot be more than 1 hour in the future".
Proof.
  apply (proj1 (validateTimestamp_window Iso8601.host Examples.noon)
           "2026-11-02T14:00:00.000Z" (Examples.noon + 7200000));
    [discriminate | vm_compute; reflexivity | vm_compute; reflexivity].
Defined.

(** *** Sensor identifiers *)

Lemma length_mapString (f : Ascii.ascii -> Ascii.ascii) (s : string) :
  String.length (mapString f s) = String.length s.
Proof.
  induction s as [| c s IH]; [reflexivity |]. cbn. rewrite IH. reflexivity.
Qed.

Lemma isIdChar_upperAscii (c : Ascii.ascii) :
  isIdChar c = true -> isIdChar (upperAscii c) = true.
Proof.
  destruct c as [[] [] [] [] [] [] [] []]; vm_compute; intros H;
    first [reflexivity | discriminate H].
Qed.

Lemma isIdChar_not_separator (c : Ascii.ascii) :
  isIdChar c = true -> ~ In c (String.list_ascii_of_string "/+#").
Proof.
  intros Hc [<- | [<- | [<- | []]]]; vm_compute in Hc; discriminate Hc.
Qed.

Lemma allChars_In (f : Ascii.ascii -> bool) (s : string) (c : Ascii.ascii) :
  allChars f s = true -> In c (String.list_ascii_of_string s) -> f c = true.
Proof.
  induction s as [| c' s IH]; [intros _ [] |]. cbn.
  intros H. apply andb_true_iff in H as [Hc Hs].
  intros [<- | Hin]; [exact Hc | exact (IH Hs Hin)].
Qed.

Lemma allChars_mapString (f : Ascii.ascii -> bool) (g : Ascii.ascii -> Ascii.ascii)
  (s : string) :
  (forall c, f c = true -> f (g c) = true) ->
  allChars f s = true -> allChars f (mapString g s) = true.
Proof.
  intros Hfg. induction s as [| c s IH]; [reflexivity |]. cbn.
  intros H. apply andb_true_iff in H as [Hc Hs].
  rewrite (Hfg c Hc), (IH Hs). reflexivity.
Qed.

Lemma validateSensorId_valid (s : string) :
  validateSensorId (Some s) = valid
  <-> s <> "" /\ (String.length s <= 50)%nat /\ allChars isIdChar s = true.
Proof.
  unfold validateSensorId, matchesIdPattern, valid, invalid. destruct s as [| c s'].
  - split; [intros H; vm_compute in H; discriminate H | intros [H _]; congruence].
  - change (missing (Some (String c s'))) with false.
    cbv [default from_option id].
    change (String.eqb (String c s') "") with false.
    cbv iota. cbn [negb andb].
    match goal with
    | |- context [Nat.ltb 50 ?n] =>
        change n with (String.length (String c s'));
        destruct (Nat.ltb_spec 50 (String.length (String c s'))) as [Hlong | Hshort]
    end; cbv iota.
    + split; [intros H; discriminate H | intros (_ & H & _); lia].
    + destruct (allChars isIdChar (String c s')); cbn [negb]; cbv iota.
      * split; [intros _; repeat split; [discriminate | exact Hshort] | reflexivity].
      * split; [intros H; discriminate H | intros (_ & _ & H); discriminate H].
Qed.

(** X2: [validateSensorId] accepts exactly the identifiers of 1 to 50
    characters among letters, digits, underscore and hyphen.  An accepted
    identifier is still accepted once upper-cased, as [applyTransformations]
    stores it, and contains none of the characters '/', '+' and '#' that
    structure the topics of the collector. *)
Theorem validateSensorId_accepts (s : string) :
  (validateSensorId (Some s) = valid
   <-> s <> "" /\ (String.length s <= 50)%nat /\ allChars isIdChar s = true)
  /\ (validateSensorId (Some s) = valid ->
      validateSensorId (Some (toUpperCase s)) = valid
      /\ (forall c,
            In c (String.list_ascii_of_string s) ->
            ~ In c (String.list_ascii_of_string "/+#"))).
Proof.
  split; [apply validateSensorId_valid |].
  intros H. apply validateSensorId_valid in H as (Hne & Hlen & Hchars). split.
  - apply validateSensorId_valid. unfold toUpperCase. split; [| split].
    + destruct s; [congruence | discriminate].
    + rewrite length_mapString. exact Hlen.
    + apply allChars_mapString; [apply isIdChar_upperAscii | exact Hchars].
  - intros c Hc. apply isIdChar_not_separator.
    exact (allChars_In isIdChar s c Hchars Hc).
Qed.

Lemma validateSensorId_accepts_witness :
  validateSensorId (Some (toUpperCase "temp_sim-001")) = valid.
Proof.
  apply (proj2 (validateSensorId_accepts "temp_sim-001")). reflexivity.
Defined.

End FieldChecks.

(** ** One reading through the processor *)

Module Pipeline.

Import DataProcessor.

Lemma validateReading_throws_Error (r : SensorReading) (e : Exn) :
  validateReading r = inl e -> exists msg, e = Error msg.
Proof.
  unfold validateReading, throw, ok.
  repeat match goal with
         | |- (if ?c then _ else _) = _ -> _ => destruct c
         end;
    intros H; try discriminate H; injection H as <-; eauto.
Qed.

Lemma validateReading_accepted_inv (r : SensorReading) :
  validateReading r = inr tt ->
  missing (sensorId r) = false
  /\ missing (sensorType r) = false
  /\ truthy (ofString (timestamp r)) = true.
Proof.
  unfold validateReading.
  destruct (missing (sensorId r)); [discriminate |].
  destruct (missing (sensorType r)); [discriminate |].
  destruct (match value r with VNull | VUndefined => true | _ => false end);
    [discriminate |].
  destruct (truthy (ofString (timestamp r))); [| discriminate].
  intros _. repeat split.
Qed.

(** X6: [processSensorReading] is rejected exactly when [validateReading]
    throws, and with the same error, always an [Error] and never a
    [TypeError]; a reading that passes validation is always processed, into
    an envelope that carries the reading unchanged, the metrics
    [calculateDerivedMetrics] and the data [applyTransformations] return for
    it, and the version "1.0.0". *)
Theorem processSensorReading_fails_only_on_validation
  (h : Host) (now : Z) (r : SensorReading) :
  (forall e, processSensorReading h now r = inl e <-> validateReading r = inl e)
  /\ (forall e, processSensorReading h now r = inl e -> exists msg, e = Error msg)
  /\ (validateReading r = inr tt
      <-> exists p, processSensorReading h now r = inr p)
  /\ (forall p,
        processSensorReading h now r = inr p ->
        reading p = r
        /\ calculateDerivedMetrics h r = inr (derivedMetrics p)
        /\ applyTransformations h r = inr (transformedData p)
        /\ processingVersion p = "1.0.0").
Proof.
  assert (Hiff : forall e,
             processSensorReading h now r = inl e <-> validateReading r = inl e).
  { intros e. destruct (validateReading r) as [e' | []] eqn:Hv.
    - unfold processSensorReading. rewrite Hv. cbn [Js.bind].
      split; intros [= ->]; reflexivity.
    - destruct (Derivation.processSensorReading_total h now r Hv) as [p Hp].
      rewrite Hp. split; discriminate. }
  split; [exact Hiff |]. split; [| split].
  - intros e He. apply Hiff in He. exact (validateReading_throws_Error r e He).
  - split.
    + apply Derivation.processSensorReading_total.
    + intros [p Hp]. apply Derivation.processSensorReading_inr in Hp as [Hv _].
      exact Hv.
  - intros p Hp.
    apply Derivation.processSensorReading_inr in Hp as (_ & d & t & Hd & Ht & ->).
    cbn [reading derivedMetrics transformedData processingVersion].
    repeat split; assumption.
Qed.

Lemma processSensorReading_fails_only_on_validation_witness :
  processSensorReading Iso8601.host Examples.noon Examples.hum001Bad
  = inl (Error "Invalid humidity value").
Proof.
  apply (proj1 (processSensorReading_fails_only_on_validation
                  Iso8601.host Examples.noon Examples.hum001Bad)).
  reflexivity.
Defined.

(** The alerts of a single envelope. *)
Lemma checkForAlerts_single (p : ProcessedData) :
  checkForAlerts [p]
  = if (qualityScore p <? 70)%Z then [qualityLowAlert p] else [].
Proof.
  cbn [checkForAlerts]. unfold isAnomaly.
  destruct (qualityScore p <? 70)%Z; reflexivity.
Qed.

(** X7: the quality score of a processed reading is 90, 85, 70 or 65, and
    the reading raises the QUALITY_LOW alert exactly when it is both older
    than five minutes and without metadata. *)
Theorem quality_low_iff_stale_without_metadata
  (h : Host) (now : Z) (r : SensorReading) (p : ProcessedData) :
  processSensorReading h now r = inr p ->
  In (qualityScore p) [90; 85; 70; 65]
  /\ (checkForAlerts [p] = [qualityLowAlert p]
      <-> stale h now r = true /\ metadataEmpty r = true)
  /\ (checkForAlerts [p] = []
      <-> stale h now r = false \/ metadataEmpty r = false).
Proof.
  intros Hp.
  apply Derivation.processSensorReading_inr in Hp as (_ & d & t & _ & _ & ->).
  rewrite checkForAlerts_single. cbn [qualityScore].
  rewrite QualityScore.calculateQualityScore_eq.
  destruct (stale h now r), (metadataEmpty r); cbn.
  - split; [auto 10 |]. split; split; intros H; auto; try discriminate.
    destruct H; discriminate.
  - split; [auto 10 |]. split; split; intros H; auto; try discriminate.
    destruct H; discriminate.
  - split; [auto 10 |]. split; split; intros H; auto; try discriminate.
    destruct H; discriminate.
  - split; [auto 10 |]. split; split; intros H; auto; try discriminate.
    destruct H; discriminate.
Qed.

Lemma quality_low_iff_stale_without_metadata_witness :
  exists p,
    processSensorReading Iso8601.host Examples.noon Examples.temp001StaleTagged
      = inr p
    /\ checkForAlerts [p] = [].
Proof.
  destruct (processSensorReading Iso8601.host Examples.noon
              Examples.temp001StaleTagged) as [e | p] eqn:Hp;
    [vm_compute in Hp; discriminate |].
  exists p. split; [reflexivity |].
  apply (quality_low_iff_stale_without_metadata _ _ _ _ Hp).
  right. reflexivity.
Defined.

(** X8: a timestamp that does not parse never counts as stale.  Such a
    reading is not refused by [validateReading] on account of its timestamp,
    scores at least 85 at every instant, raises no QUALITY_LOW alert and is
    stored with no time value. *)
Theorem unparseable_timestamp_counts_as_fresh
  (h : Host) (now : Z) (r : SensorReading) (s : string) :
  timestamp r = Some s ->
  s <> "" ->
  Date_getTime h s = None ->
  stale h now r = false
  /\ 85 <= calculateQualityScore h now r
  /\ validateReading r = validateReading (withTimestamp (Some "1970-01-01T00:00:00.000Z") r)
  /\ (forall p,
        processSensorReading h now r = inr p ->
        checkForAlerts [p] = []
        /\ transformedTimestamp (transformedData p) = None).
Proof.
  intros Hts Hs Hparse.
  assert (Htime : timeOf h r = None) by (unfold timeOf; rewrite Hts; exact Hparse).
  assert (Hstale : stale h now r = false) by (unfold stale; rewrite Htime; reflexivity).
  assert (Hscore : 85 <= calculateQualityScore h now r).
  { rewrite QualityScore.calculateQualityScore_eq, Hstale.
    destruct (metadataEmpty r); lia. }
  split; [exact Hstale |]. split; [exact Hscore |]. split.
  - unfold validateReading.
    change (isType (withTimestamp (Some "1970-01-01T00:00:00.000Z") r)) with (isType r).
    cbn [sensorId sensorType value timestamp withTimestamp].
    rewrite Hts. cbn [ofString].
    rewrite (Validation.truthy_nonempty s Hs). reflexivity.
  - intros p Hp.
    apply Derivation.processSensorReading_inr in Hp as (_ & d & t & _ & Ht & ->).
    rewrite checkForAlerts_single. cbn [qualityScore transformedData].
    destruct (Z.ltb_spec (calculateQualityScore h now r) 70); [lia |].
    split; [reflexivity |].
    unfold applyTransformations, callOn, Js.bind, ok in Ht.
    destruct (sensorId r); [| discriminate].
    destruct (sensorType r); [| discriminate].
    injection Ht as <-. exact Htime.
Qed.

Lemma unparseable_timestamp_counts_as_fresh_witness :
  validateReading (withTimestamp (Some "last week") Examples.temp001) = inr tt
  /\ stale Iso8601.host Examples.noon
       (withTimestamp (Some "last week") Examples.temp001) = false.
Proof.
  destruct (unparseable_timestamp_counts_as_fresh Iso8601.host Examples.noon
              (withTimestamp (Some "last week") Examples.temp001) "last week")
    as (Hstale & _ & Hv & _); [reflexivity | discriminate | reflexivity |].
  split; [rewrite Hv; reflexivity | exact Hstale].
Defined.

End Pipeline.

(** ** Runs of the processor *)

Module Runs.

Import DataProcessor.

(** A batch of readings that all pass validation is processed whole, reading
    by reading and in order. *)
Lemma valid_batch_is_processed (h : Host) (now : Z) (batch : list SensorReading) :
  Forall (fun r => validateReading r = inr tt) batch ->
  exists ps,
    map (processSensorReading h now) batch = map inr ps
    /\ map reading ps = batch
    /\ Forall (fun p => processedAt p = now
                        /\ qualityScore p = calculateQualityScore h now (reading p))
         ps.
Proof.
  induction 1 as [| r batch Hr _ (ps & Hps & Hrs & Hall)].
  - exists []. repeat split. constructor.
  - destruct (Derivation.processSensorReading_total h now r Hr) as [p Hp].
    exists (p :: ps). cbn [map]. rewrite Hp, Hps, Hrs.
    apply Derivation.processSensorReading_inr in Hp as (_ & d & t & _ & _ & ->).
    repeat split. constructor; [split; reflexivity | exact Hall].
Qed.

(** X9: when every reading of the batch passes [validateReading], the flush
    emits exactly one 'dataProcessed' event, whose envelopes are those of the
    [batchSize] oldest readings of the queue, in the order of their arrival.
    What the flush adds to the log and the events is the line on the batch,
    that event, the line on the processed readings and, when an envelope
    raises an alert, one 'alertGenerated' event with its line: no error is
    logged.  The readings behind the batch stay in the queue and the
    processor is idle again. *)
Theorem flush_emits_batch_in_arrival_order (h : Host) (now : Z) (s : State) :
  isProcessing s = false ->
  processingQueue s <> [] ->
  Forall (fun r => validateReading r = inr tt)
    (take (batchSize s) (processingQueue s)) ->
  exists ps,
    map reading ps = take (batchSize s) (processingQueue s)
    /\ outputs (resume (processQueue h now s))
       = (outputs s
          ++ [LogInfo ("Processing batch of " ++ pretty (length ps)
                         ++ " sensor readings");
              EmitDataProcessed ps;
              LogInfo ("Processed " ++ pretty (length ps) ++ " sensor readings")]
          ++ (if Nat.ltb 0 (length (checkForAlerts ps))
              then [EmitAlertGenerated (checkForAlerts ps);
                    LogWarn ("Generated " ++ pretty (length (checkForAlerts ps))
                               ++ " alerts")]
              else []))%list
    /\ processingQueue (resume (processQueue h now s))
       = drop (batchSize s) (processingQueue s)
    /\ isProcessing (resume (processQueue h now s)) = false.
Proof.
  intros Hidle Hne Hvalid.
  destruct (valid_batch_is_processed h now _ Hvalid) as (ps & Hps & Hrs & Hall).
  destruct (Batching.processQueue_runs h now s Hidle Hne)
    as (Hq & Haw & _ & _ & _ & _ & _ & Hout).
  exists ps. split; [exact Hrs |].
  unfold resume. rewrite Haw. cbn [outputs processingQueue isProcessing].
  rewrite Hout, Hps, Hq.
  assert (Hlogs : concat (map rejectionLog (map inr ps)) = [])
    by (clear; induction ps; [reflexivity | assumption]).
  rewrite Hlogs, app_nil_r.
  unfold resumed. rewrite (proj2 (Batching.promiseAll_fulfilled _ ps) eq_refl).
  rewrite <- Hrs, length_map.
  split; [| split; reflexivity].
  rewrite <- !app_assoc. reflexivity.
Qed.

Lemma flush_emits_batch_in_arrival_order_witness :
  let s := run Iso8601.host
             [(Examples.noon, AddToQueue Examples.temp001);
              (Examples.noon, AddToQueue Examples.pressure1100)] init in
  exists ps,
    map reading ps = [Examples.temp001; Examples.pressure1100]
    /\ In (EmitDataProcessed ps)
         (outputs (resume (processQueue Iso8601.host Examples.noon s)))
    /\ processingQueue (resume (processQueue Iso8601.host Examples.noon s)) = []
    /\ isProcessing (resume (processQueue Iso8601.host Examples.noon s)) = false.
Proof.
  intros s.
  destruct (flush_emits_batch_in_arrival_order Iso8601.host Examples.noon s)
    as (ps & Hrs & Hout & Hq & Hidle).
  - reflexivity.
  - discriminate.
  - repeat constructor.
  - exists ps. split; [exact Hrs |]. split; [| split; [exact Hq | exact Hidle]].
    rewrite Hout. apply in_or_app. right. right. left. reflexivity.
Defined.

(** What the steps keep. *)
Lemma resume_processingQueue (s : State) :
  processingQueue (resume s) = processingQueue s.
Proof. unfold resume. destruct (awaiting s); reflexivity. Qed.

Lemma resume_idle (s : State) :
  isProcessing s = false -> isProcessing (resume s) = false.
Proof. unfold resume. destruct (awaiting s); [reflexivity | auto]. Qed.

Lemma resume_fields (s : State) :
  batchSize (resume s) = batchSize s
  /\ intervalId (resume s) = intervalId s
  /\ processingInterval (resume s) = processingInterval s.
Proof. unfold resume. destruct (awaiting s); repeat split. Qed.

Lemma processQueue_fields (h : Host) (now : Z) (s : State) :
  batchSize (processQueue h now s) = batchSize s
  /\ intervalId (processQueue h now s) = intervalId s
  /\ processingInterval (processQueue h now s) = processingInterval s.
Proof. unfold processQueue. destruct (_ || _); repeat split. Qed.

Lemma processQueue_flag (h : Host) (now : Z) (s : State) :
  flagTracksFlush s -> flagTracksFlush (processQueue h now s).
Proof.
  unfold flagTracksFlush, processQueue. intros H.
  destruct (isProcessing s || _); [exact H |].
  cbn [isProcessing awaiting]. split; eauto.
Qed.

Lemma step_flag (h : Host) (s : State) (e : Z * Event) :
  flagTracksFlush s -> flagTracksFlush (step h s e).
Proof.
  intros H. destruct e as [now [r | |]]; cbn [step].
  - unfold addToQueue. destruct (Nat.leb _ _).
    + apply processQueue_flag. exact H.
    + exact H.
  - unfold timer. destruct (intervalId s); [| exact H].
    destruct (_ && _); [apply processQueue_flag |]; exact H.
  - unfold flagTracksFlush, resume. destruct (awaiting s); [| exact H].
    cbn [isProcessing awaiting]. split; [discriminate | intros [x Hx]; discriminate].
Qed.

(** Flushes that are under way: started and not yet at their end. *)
Lemma rejectionLog_no_flush_end (ps : list (Result ProcessedData)) :
  List.filter isFlushEnd (concat (map rejectionLog ps)) = [].
Proof.
  induction ps as [| [e | p] ps IH]; cbn; [reflexivity | exact IH | exact IH].
Qed.

Lemma resumed_one_flush_end (ps : list (Result ProcessedData)) :
  length (List.filter isFlushEnd (resumed ps)) = 1%nat.
Proof.
  unfold resumed. destruct (promiseAll ps) as [e | l]; [reflexivity |].
  destruct (Nat.ltb 0 (length (checkForAlerts l))); reflexivity.
Qed.

Lemma processQueue_in_flight (h : Host) (now : Z) (s : State) :
  (isProcessing s = false /\ flushCount s = endCount s)
  \/ (isProcessing s = true /\ flushCount s = S (endCount s)) ->
  (isProcessing (processQueue h now s) = false
   /\ flushCount (processQueue h now s) = endCount (processQueue h now s))
  \/ (isProcessing (processQueue h now s) = true
      /\ flushCount (processQueue h now s) = S (endCount (processQueue h now s))).
Proof.
  intros [[Hidle Hc] | [Hbusy Hc]].
  - destruct (processingQueue s) as [| r q] eqn:Hq.
    + left. unfold processQueue. rewrite Hidle, Hq. cbn [length Nat.eqb orb].
      split; assumption.
    + right.
      assert (Hne : processingQueue s <> []) by (rewrite Hq; discriminate).
      destruct (Batching.processQueue_runs h now s Hidle Hne)
        as (_ & _ & _ & _ & Hf & _ & Hn & Hout).
      split; [exact Hf |]. rewrite Hn, Hc. f_equal.
      unfold endCount. rewrite Hout.
      rewrite !List.filter_app, rejectionLog_no_flush_end, app_nil_r.
      cbn [List.filter isFlushEnd]. reflexivity.
  - right. rewrite (Batching.processQueue_busy h now s Hbusy). split; assumption.
Qed.

Lemma step_in_flight (h : Host) (s : State) (e : Z * Event) :
  flagTracksFlush s ->
  (isProcessing s = false /\ flushCount s = endCount s)
  \/ (isProcessing s = true /\ flushCount s = S (endCount s)) ->
  (isProcessing (step h s e) = false
   /\ flushCount (step h s e) = endCount (step h s e))
  \/ (isProcessing (step h s e) = true
      /\ flushCount (step h s e) = S (endCount (step h s e))).
Proof.
  intros Hflag H. destruct e as [now [r | |]]; cbn [step].
  - unfold addToQueue. destruct (Nat.leb _ _).
    + apply processQueue_in_flight. exact H.
    + exact H.
  - unfold timer. destruct (intervalId s); [| exact H].
    destruct (_ && _); [apply processQueue_in_flight |]; exact H.
  - unfold resume. destruct (awaiting s) as [promises |] eqn:Haw; [| exact H].
    left. cbn [isProcessing]. split; [reflexivity |].
    assert (Hbusy : isProcessing s = true) by (apply Hflag; rewrite Haw; eauto).
    destruct H as [[Hidle _] | [_ Hc]]; [congruence |].
    unfold flushCount, endCount in *. cbn [outputs].
    rewrite !List.filter_app, !length_app.
    rewrite Batching.resumed_no_flush_start, resumed_one_flush_end.
    cbn [length]. lia.
Qed.

(** X10: at most one flush is under way at any time.  In every state the
    processor reaches from its initial state, by any sequence of enqueues,
    timer ticks and resumptions, the flushes that have started ("Processing
    batch of ..." in the log) are as many as those that have come to their
    end ('dataProcessed' emitted, or the error of the batch logged) while
    [isProcessing] is clear, and one more while it is set: a flush never
    starts before the one before it has ended. *)
Theorem at_most_one_flush_in_flight (h : Host) (es : list (Z * Event)) :
  (isProcessing (run h es init) = false
   /\ flushCount (run h es init) = endCount (run h es init))
  \/ (isProcessing (run h es init) = true
      /\ flushCount (run h es init) = S (endCount (run h es init))).
Proof.
  assert (Hgen : forall s0,
             flagTracksFlush s0 ->
             (isProcessing s0 = false /\ flushCount s0 = endCount s0)
             \/ (isProcessing s0 = true /\ flushCount s0 = S (endCount s0)) ->
             (isProcessing (run h es s0) = false
              /\ flushCount (run h es s0) = endCount (run h es s0))
             \/ (isProcessing (run h es s0) = true
                 /\ flushCount (run h es s0) = S (endCount (run h es s0)))).
  { induction es as [| e es IH]; intros s0 Hflag H0; [exact H0 |].
    rewrite Batching.run_cons.
    apply IH; [apply step_flag; exact Hflag | apply step_in_flight; assumption]. }
  apply Hgen.
  - unfold flagTracksFlush. cbn. split; [discriminate | intros [x Hx]; discriminate].
  - left. split; reflexivity.
Qed.

Lemma at_most_one_flush_in_flight_witness :
  let s := run Iso8601.host
             [(Examples.noon, AddToQueue Examples.temp001);
              (Examples.noon + 5000, TimerFired);
              (Examples.noon + 5000, AddToQueue Examples.pressure1100);
              (Examples.noon + 10000, TimerFired)] init in
  isProcessing s = true /\ flushCount s = 1%nat /\ endCount s = 0%nat
  /\ isProcessing (resume s) = false
  /\ flushCount (resume s) = 1%nat /\ endCount (resume s) = 1%nat.
Proof.
  intros s.
  destruct (at_most_one_flush_in_flight Iso8601.host
              [(Examples.noon, AddToQueue Examples.temp001);
               (Examples.noon + 5000, TimerFired);
               (Examples.noon + 5000, AddToQueue Examples.pressure1100);
               (Examples.noon + 10000, TimerFired)]) as [[Hf _] | [Hf Hc]];
    [discriminate Hf |].
  fold s in Hf, Hc.
  assert (He : endCount s = 0%nat) by reflexivity.
  split; [exact Hf |]. split; [rewrite Hc, He; reflexivity |].
  split; [exact He |]. vm_compute. repeat split.
Defined.

Lemma added_cons_timer (now : Z) (es : list (Z * Event)) :
  added ((now, TimerFired) :: es) = added es.
Proof. reflexivity. Qed.

Lemma timer_busy (h : Host) (now : Z) (s : State) :
  isProcessing s = true -> timer h now s = s.
Proof.
  intros Hbusy. unfold timer. rewrite Hbusy, andb_false_r.
  destruct (intervalId s); reflexivity.
Qed.

(** X11: while a flush is in flight nothing else is flushed.  Until the
    flush resumes, every enqueued reading is appended to the queue, however
    long the queue gets, the ticks of the timer do nothing, and nothing is
    logged or emitted. *)
Theorem busy_processor_only_queues (h : Host) (es : list (Z * Event)) (s : State) :
  isProcessing s = true ->
  Forall (fun e => snd e <> Resumed) es ->
  processingQueue (run h es s) = (processingQueue s ++ added es)%list
  /\ outputs (run h es s) = outputs s
  /\ awaiting (run h es s) = awaiting s
  /\ isProcessing (run h es s) = true
  /\ queueLength (getStats (run h es s))
     = (length (processingQueue s) + length (added es))%nat.
Proof.
  intros Hbusy Hes.
  assert (Hgen : processingQueue (run h es s) = (processingQueue s ++ added es)%list
                 /\ outputs (run h es s) = outputs s
                 /\ awaiting (run h es s) = awaiting s
                 /\ isProcessing (run h es s) = true).
  { revert s Hbusy. induction Hes as [| [now e] es Hne _ IH]; intros s Hbusy.
    - cbn. rewrite app_nil_r. repeat split. exact Hbusy.
    - rewrite Batching.run_cons. destruct e as [r | |]; cbn [step].
      + rewrite (Batching.addToQueue_busy h now r s Hbusy), Batching.added_cons_add.
        destruct (IH (push r s) Hbusy) as (Hq & Ho & Ha & Hf).
        rewrite Hq, Ho, Ha, Hf. cbn [processingQueue outputs awaiting push].
        rewrite <- app_assoc. repeat split.
      + rewrite (timer_busy h now s Hbusy), added_cons_timer. exact (IH s Hbusy).
      + elim Hne. reflexivity. }
  destruct Hgen as (Hq & Ho & Ha & Hf).
  repeat split; try assumption.
  unfold getStats. cbn [queueLength]. rewrite Hq, length_app. reflexivity.
Qed.

Lemma busy_processor_only_queues_witness :
  let s := run Iso8601.host [(Examples.noon, AddToQueue Examples.temp001)]
             (withBatchSize 1 init) in
  processingQueue
    (run Iso8601.host
       [(Examples.noon, AddToQueue Examples.pressure1100);
        (Examples.noon + 5000, TimerFired);
        (Examples.noon + 5000, AddToQueue Examples.pressure900)] s)
  = [Examples.pressure1100; Examples.pressure900].
Proof.
  intros s.
  destruct (busy_processor_only_queues Iso8601.host
              [(Examples.noon, AddToQueue Examples.pressure1100);
               (Examples.noon + 5000, TimerFired);
               (Examples.noon + 5000, AddToQueue Examples.pressure900)] s)
    as (Hq & _).
  - reflexivity.
  - repeat constructor; discriminate.
  - exact Hq.
Defined.

Lemma tick_then_resume (h : Host) (now : Z) (s : State) :
  intervalId s = true ->
  isProcessing s = false ->
  let s' := resume (timer h now s) in
  processingQueue s' = drop (batchSize s) (processingQueue s)
  /\ isProcessing s' = false
  /\ intervalId s' = true
  /\ batchSize s' = batchSize s.
Proof.
  intros Hi Hidle s'. subst s'. unfold timer. rewrite Hi, Hidle. cbn [negb].
  rewrite andb_true_r.
  destruct (processingQueue s) as [| r q] eqn:Hq.
  - cbn [length Nat.ltb Nat.leb]. rewrite resume_processingQueue, Hq, drop_nil.
    destruct (resume_fields s) as (Hb & Hint & _).
    rewrite (resume_idle s Hidle), Hint, Hb. auto.
  - cbn [length Nat.ltb Nat.leb].
    destruct (Batching.processQueue_runs h now s Hidle) as (Hq' & Haw & _);
      [rewrite Hq; discriminate |].
    destruct (processQueue_fields h now s) as (Hb & Hint & _).
    destruct (resume_fields (processQueue h now s)) as (Hb' & Hint' & _).
    rewrite resume_processingQueue, Hq', Hb', Hint', Hb, Hint, <- Hq.
    split; [reflexivity |]. split; [| auto].
    unfold resume. rewrite Haw. reflexivity.
Qed.

(** X12: left to the timer, an idle processor drains its queue oldest
    first, at most [batchSize] readings per tick: after [n] ticks, each
    followed by the resumption of its flush, the queue is what remains of it
    after its [n * batchSize] oldest readings. *)
Theorem timer_drains_queue_in_batches (h : Host) (ticks : list Z) (s : State) :
  intervalId s = true ->
  isProcessing s = false ->
  let es := flat_map (fun t => [(t, TimerFired); (t, Resumed)]) ticks in
  processingQueue (run h es s)
  = drop (length ticks * batchSize s) (processingQueue s)
  /\ isProcessing (run h es s) = false.
Proof.
  revert s. induction ticks as [| t ticks IH]; intros s Hi Hidle; cbn zeta.
  - split; [reflexivity | exact Hidle].
  - cbn [flat_map app]. rewrite !Batching.run_cons. cbn [step].
    destruct (tick_then_resume h t s Hi Hidle) as (Hq & Hidle' & Hi' & Hb).
    destruct (IH _ Hi' Hidle') as (Hq' & Hf).
    rewrite Hq', Hq, Hb, drop_drop. split; [reflexivity | exact Hf].
Qed.

Lemma timer_drains_queue_in_batches_witness :
  let s := run Iso8601.host
             [(Examples.noon, AddToQueue Examples.temp001);
              (Examples.noon, AddToQueue Examples.pressure1100);
              (Examples.noon, AddToQueue Examples.pressure900)]
             (withBatchSize 4 init) in
  processingQueue
    (run Iso8601.host
       [(Examples.noon + 5000, TimerFired); (Examples.noon + 5000, Resumed)]
       (withBatchSize 2 s))
  = [Examples.pressure900].
Proof.
  intros s.
  destruct (timer_drains_queue_in_batches Iso8601.host [Examples.noon + 5000]
              (withBatchSize 2 s)) as (Hq & _); [reflexivity | reflexivity |].
  exact Hq.
Defined.

End Runs.

(** ** The intervals behind the timer *)

Module Intervals.

Import Timers.

Lemma filter_below (k : nat) (l : list nat) :
  Forall (fun j => (j < k)%nat) l ->
  List.filter (fun j => negb (Nat.eqb j k)) l = l.
Proof.
  induction 1 as [| j l Hj _ IH]; [reflexivity |].
  cbn [List.filter]. rewrite IH.
  destruct (Nat.eqb_spec j k) as [-> | _]; [lia | reflexivity].
Qed.

Lemma seq_below (k : nat) : Forall (fun j => (j < k)%nat) (seq 0 k).
Proof. apply List.Forall_forall. intros j Hj. apply in_seq in Hj. lia. Qed.

(** The timers after [k] calls of [startProcessing] on a new object. *)
Lemma startProcessing_iter (k : nat) :
  Nat.iter (S k) startProcessing fresh
  = {| intervalId := Some k; running := seq 0 (S k); nextHandle := S k |}.
Proof.
  induction k as [| k IH]; [reflexivity |].
  change (Nat.iter (S (S k)) startProcessing fresh)
    with (startProcessing (Nat.iter (S k) startProcessing fresh)).
  rewrite IH. unfold startProcessing, setInterval.
  cbn [intervalId running nextHandle]. rewrite <- seq_S. reflexivity.
Qed.

(** X13: [stopProcessing] clears only the interval that the latest
    [startProcessing] installed.  Of the [k + 1] intervals that [k + 1] calls
    of [startProcessing] set on a new processor, the [k] earlier are still
    running after [stopProcessing], and calling it again changes nothing;
    a tick of any of them still flushes an idle processor whose queue is not
    empty.  With the one call of the constructor alone, [stopProcessing]
    leaves no interval; with the call of the module's [start] after it, the
    interval of the constructor keeps ticking. *)
Theorem stopProcessing_clears_only_latest_interval (k : nat) :
  let t := stopProcessing (Nat.iter (S k) startProcessing fresh) in
  running t = seq 0 k
  /\ intervalId t = None
  /\ stopProcessing t = t
  /\ (forall h now i s,
        (i < k)%nat ->
        DataProcessor.isProcessing s = false ->
        DataProcessor.processingQueue s <> [] ->
        tick h now i t s = DataProcessor.processQueue h now s)
  /\ (forall h now s, tick h now k t s = s)
  /\ running (stopProcessing constructed) = []
  /\ running (stopProcessing (startProcessing constructed)) = [0%nat].
Proof.
  intros t.
  assert (Ht : t = {| intervalId := None; running := seq 0 k; nextHandle := S k |}).
  { unfold t. rewrite startProcessing_iter.
    unfold stopProcessing, clearInterval. cbn [intervalId running nextHandle].
    rewrite seq_S, List.filter_app, (filter_below k _ (seq_below k)).
    cbn [List.filter Nat.add]. rewrite Nat.eqb_refl. cbn [negb].
    rewrite app_nil_r. reflexivity. }
  rewrite Ht. cbn [running intervalId].
  split; [reflexivity |]. split; [reflexivity |]. split; [reflexivity |].
  split; [| split; [| split; reflexivity]].
  - intros h now i s Hi Hidle Hne. unfold tick. cbn [running].
    assert (Hin : existsb (Nat.eqb i) (seq 0 k) = true).
    { apply existsb_exists. exists i. split; [apply in_seq; lia | apply Nat.eqb_refl]. }
    rewrite Hin. unfold callback. rewrite Hidle.
    destruct (DataProcessor.processingQueue s); [contradiction | reflexivity].
  - intros h now s. unfold tick. cbn [running].
    assert (Hout : existsb (Nat.eqb k) (seq 0 k) = false).
    { destruct (existsb (Nat.eqb k) (seq 0 k)) eqn:He; [| reflexivity].
      apply existsb_exists in He as (j & Hj & Hjk).
      apply in_seq in Hj. apply Nat.eqb_eq in Hjk. lia. }
    rewrite Hout. reflexivity.
Qed.

Lemma stopProcessing_clears_only_latest_interval_witness :
  let t := stopProcessing (startProcessing constructed) in
  let s := DataProcessor.run Iso8601.host
             [(Examples.noon, DataProcessor.AddToQueue Examples.temp001)]
             DataProcessor.init in
  running t = [0%nat]
  /\ DataProcessor.flushCount (tick Iso8601.host Examples.noon 0 t s) = 1%nat
  /\ DataProcessor.processingQueue (tick Iso8601.host Examples.noon 0 t s) = [].
Proof.
  intros t s.
  destruct (stopProcessing_clears_only_latest_interval 1)
    as (Hr & _ & _ & Htick & _).
  split; [exact Hr |].
  change (stopProcessing (Nat.iter 2 startProcessing fresh)) with t in Htick.
  rewrite (Htick Iso8601.host Examples.noon 0%nat s);
    [| lia | reflexivity | discriminate].
  split; reflexivity.
Defined.

End Intervals.

(** ** Alerts and the registry of sensors *)

Module Registry.

Import SensorDataCollector.

(** X20: every alert that the processor raises for a reading it has
    processed passes [SensorDataValidator.validateDataAlert].  The sensor id,
    the type, the severity and the message are in order by construction, and
    the timestamp, which is the reading's, parses: the alert is raised only
    for a reading that [calculateQualityScore] found older than five minutes,
    which a reading whose timestamp does not parse never is. *)
Theorem processor_alerts_pass_validateDataAlert
  (h : Host) (now : Z) (r : SensorReading) (p : ProcessedData) (a : DataAlert) :
  DataProcessor.processSensorReading h now r = inr p ->
  In a (DataProcessor.checkForAlerts [p]) ->
  SensorDataValidator.validateDataAlert h a = SensorDataValidator.valid
  /\ alertTimestamp a = timestamp r
  /\ exists t, DataProcessor.timeOf h r = Some t.
Proof.
  intros Hp Ha.
  apply Derivation.processSensorReading_inr in Hp as (Hv & d & t & _ & _ & ->).
  rewrite Pipeline.checkForAlerts_single in Ha. cbn [qualityScore] in Ha.
  destruct (_ <? 70)%Z eqn:Hlow; [| destruct Ha]. destruct Ha as [<- | []].
  assert (Hstale : DataProcessor.stale h now r = true).
  { rewrite QualityScore.calculateQualityScore_eq in Hlow.
    destruct (DataProcessor.stale h now r); [reflexivity |].
    destruct (DataProcessor.metadataEmpty r); discriminate Hlow. }
  assert (Htime : exists t', DataProcessor.timeOf h r = Some t').
  { unfold DataProcessor.stale in Hstale.
    destruct (DataProcessor.timeOf h r) as [t' |]; [eauto | discriminate]. }
  split; [| split; [reflexivity | exact Htime]].
  destruct (Pipeline.validateReading_accepted_inv r Hv) as (Hid & _ & Hts).
  unfold SensorDataValidator.validateDataAlert, SensorDataValidator.missing.
  cbn [alertSensorId alertType severity message alertTimestamp
       DataProcessor.qualityLowAlert reading].
  rewrite Hid, Hts.
  change (DataProcessor.missing (Some (SensorDataValidator.alertTypeName QUALITY_LOW)))
    with false.
  change (negb (truthy (VStr (SensorDataValidator.severityName medium)))
          || negb (existsb (String.eqb (SensorDataValidator.severityName medium))
                     ["low"; "medium"; "high"; "critical"])) with false.
  change (DataProcessor.missing
            (Some ("Low quality score: "
                   ++ pretty (DataProcessor.calculateQualityScore h now r))))
    with false.
  cbn [negb]. cbv iota.
  destruct Htime as [t' Ht'].
  unfold SensorDataValidator.unparseable. unfold DataProcessor.timeOf in Ht'.
  destruct (timestamp r) as [s |]; [| discriminate Hts].
  rewrite Ht'. reflexivity.
Qed.

Lemma processor_alerts_pass_validateDataAlert_witness :
  exists p,
    DataProcessor.processSensorReading Iso8601.host Examples.noon Examples.temp001Stale
      = inr p
    /\ DataProcessor.checkForAlerts [p] = [DataProcessor.qualityLowAlert p]
    /\ SensorDataValidator.validateDataAlert Iso8601.host
         (DataProcessor.qualityLowAlert p)
       = SensorDataValidator.valid.
Proof.
  destruct (DataProcessor.processSensorReading Iso8601.host Examples.noon
              Examples.temp001Stale) as [e | p] eqn:Hp;
    [vm_compute in Hp; discriminate |].
  assert (Hal : DataProcessor.checkForAlerts [p] = [DataProcessor.qualityLowAlert p]).
  { vm_compute in Hp. injection Hp as <-. reflexivity. }
  exists p. split; [reflexivity |]. split; [exact Hal |].
  apply (processor_alerts_pass_validateDataAlert _ _ _ _ _ Hp).
  rewrite Hal. left. reflexivity.
Defined.

(** The threshold that applies depends on the registry only through the
    entry of the reading's sensor. *)
Lemma thresholdFor_lookup (sensors sensors' : gmap string SensorConfig)
  (r : SensorReading) (id : string) :
  sensorId r = Some id ->
  thresholds <$> (sensors !! id) = thresholds <$> (sensors' !! id) ->
  thresholdFor sensors r = thresholdFor sensors' r.
Proof.
  intros Hid H. unfold thresholdFor. rewrite Hid. cbn.
  destruct (sensors !! id), (sensors' !! id); cbn in *; congruence.
Qed.

Lemma checkForAlerts_lookup (h : Host) (sensors sensors' : gmap string SensorConfig)
  (r : SensorReading) (id : string) :
  sensorId r = Some id ->
  thresholds <$> (sensors !! id) = thresholds <$> (sensors' !! id) ->
  checkForAlerts h sensors r = checkForAlerts h sensors' r.
Proof.
  intros Hid H. unfold checkForAlerts.
  rewrite (thresholdFor_lookup sensors sensors' r id Hid H). reflexivity.
Qed.

Lemma thresholdFor_anonymous (sensors : gmap string SensorConfig) (r : SensorReading) :
  sensorId r = None -> thresholdFor sensors r = None.
Proof. intros H. unfold thresholdFor. rewrite H. reflexivity. Qed.

(** X14: unregistering a sensor silences its threshold alerts and changes
    nothing for the readings of the other sensors; registering a sensor
    decides the alerts of its readings by the new configuration alone and
    changes nothing for the others. *)
Theorem registration_scopes_alerts
  (h : Host) (sensors : gmap string SensorConfig) (r : SensorReading) :
  (forall id,
     sensorId r = Some id ->
     checkForAlerts h (unregisterSensor id sensors) r = None)
  /\ (forall id,
        sensorId r <> Some id ->
        checkForAlerts h (unregisterSensor id sensors) r = checkForAlerts h sensors r)
  /\ (forall c,
        sensorId r = Some (configId c) ->
        checkForAlerts h (registerSensor c sensors) r
        = checkForAlerts h {[ configId c := c ]} r)
  /\ (forall c,
        sensorId r <> Some (configId c) ->
        checkForAlerts h (registerSensor c sensors) r = checkForAlerts h sensors r).
Proof.
  split; [| split; [| split]].
  - intros id Hid. unfold checkForAlerts, thresholdFor, unregisterSensor.
    rewrite Hid. cbn. rewrite lookup_delete_eq. reflexivity.
  - intros id Hne. destruct (sensorId r) as [id' |] eqn:Hid.
    + apply (checkForAlerts_lookup h _ _ r id' Hid).
      unfold unregisterSensor. rewrite lookup_delete_ne by congruence. reflexivity.
    + unfold checkForAlerts. rewrite !thresholdFor_anonymous by exact Hid.
      reflexivity.
  - intros c Hid. apply (checkForAlerts_lookup h _ _ r (configId c) Hid).
    unfold registerSensor. rewrite lookup_insert_eq, lookup_singleton_eq.
    reflexivity.
  - intros c Hne. destruct (sensorId r) as [id' |] eqn:Hid.
    + apply (checkForAlerts_lookup h _ _ r id' Hid).
      unfold registerSensor. rewrite lookup_insert_ne by congruence. reflexivity.
    + unfold checkForAlerts. rewrite !thresholdFor_anonymous by exact Hid.
      reflexivity.
Qed.

(** X15: the registry is a map from sensor ids: a registered configuration
    is the one that [getSensorStatus] returns, a second registration under
    the same id replaces the first, an unregistered id is unknown, other
    ids are untouched, and unregistering a sensor that was registered on a
    registry that did not know it gives that registry back. *)
Theorem registry_round_trips (sensors : gmap string SensorConfig) (c : SensorConfig) :
  getSensorStatus (configId c) (registerSensor c sensors) = Some c
  /\ (forall c',
        configId c' = configId c ->
        registerSensor c' (registerSensor c sensors) = registerSensor c' sensors)
  /\ getSensorStatus (configId c) (unregisterSensor (configId c) sensors) = None
  /\ (forall id,
        id <> configId c ->
        getSensorStatus id (registerSensor c sensors) = getSensorStatus id sensors
        /\ getSensorStatus id (unregisterSensor (configId c) sensors)
           = getSensorStatus id sensors)
  /\ (getSensorStatus (configId c) sensors = None ->
      unregisterSensor (configId c) (registerSensor c sensors) = sensors).
Proof.
  unfold getSensorStatus, registerSensor, unregisterSensor.
  split; [apply lookup_insert_eq |]. split.
  - intros c' Heq. rewrite <- Heq. apply insert_insert_eq.
  - split; [apply lookup_delete_eq |]. split.
    + intros id Hne. split.
      * apply lookup_insert_ne. congruence.
      * apply lookup_delete_ne. congruence.
    + intros Hnone. rewrite delete_insert_eq. apply delete_id. exact Hnone.
Qed.


Lemma registration_scopes_alerts_witness :
  is_Some (checkForAlerts Iso8601.host
             (registerSensor Examples.pressure1Config ∅) Examples.pressure1100)
  /\ checkForAlerts Iso8601.host
       (unregisterSensor "PRESSURE1" (registerSensor Examples.pressure1Config ∅))
       Examples.pressure1100 = None.
Proof.
  split; [vm_compute; eauto |].
  apply (proj1 (registration_scopes_alerts Iso8601.host
                  (registerSensor Examples.pressure1Config ∅)
                  Examples.pressure1100)).
  reflexivity.
Defined.

(** X25: a number within the closed interval from [min] to [max], bounds
    included, raises no threshold alert, and neither does NaN: the alert
    needs a value strictly beyond a bound. *)
Theorem value_within_thresholds_raises_no_alert
  (h : Host) (sensors : gmap string SensorConfig) (r : SensorReading)
  (t : Threshold) (v : float) :
  thresholdFor sensors r = Some t ->
  value r = VNum v ->
  (PrimFloat.leb (thresholdMin t) v = true /\ PrimFloat.leb v (thresholdMax t) = true)
  \/ is_nan v = true ->
  checkForAlerts h sensors r = None.
Proof.
  intros Ht Hv Hin. unfold checkForAlerts, gt, lt. rewrite Ht, Hv. cbn [ToNumber].
  destruct Hin as [[Hlo Hhi] | Hnan].
  - rewrite (FloatOrder.leb_not_ltb _ _ Hhi), (FloatOrder.leb_not_ltb _ _ Hlo).
    reflexivity.
  - rewrite (FloatOrder.ltb_nan_r _ v Hnan), (FloatOrder.ltb_nan_l v _ Hnan).
    reflexivity.
Qed.

Lemma value_within_thresholds_raises_no_alert_witness :
  checkForAlerts Iso8601.host {[ "PRESSURE1" := Examples.pressure1Config ]}
    (withValue (VNum 1050) Examples.pressure1100) = None.
Proof.
  apply (value_within_thresholds_raises_no_alert Iso8601.host
           {[ "PRESSURE1" := Examples.pressure1Config ]}
           (withValue (VNum 1050) Examples.pressure1100)
           {| thresholdMin := 950; thresholdMax := 1050 |} 1050%float);
    [reflexivity | reflexivity | left; split; reflexivity].
Defined.

(** X24: [processSensorData] checks thresholds only for readings that pass
    the collector's validation.  It emits a 'sensorAlert' exactly when the
    reading is valid and [checkForAlerts] yields that alert, echoes every
    such alert as an 'alertNotification', and emits 'processedData' exactly
    for the valid readings. *)
Theorem processSensorData_alerts_only_valid_readings
  (h : Host) (sensors : gmap string SensorConfig) (r : SensorReading) :
  (forall alert,
     In (EmitSensorAlert alert) (processSensorData h sensors r)
     <-> validateSensorReading r = true /\ checkForAlerts h sensors r = Some alert)
  /\ (forall alert,
        In (EmitAlertNotification alert) (processSensorData h sensors r)
        <-> In (EmitSensorAlert alert) (processSensorData h sensors r))
  /\ (forall r',
        In (EmitProcessedData r') (processSensorData h sensors r)
        <-> validateSensorReading r = true /\ r' = r).
Proof.
  unfold processSensorData, handleSensorAlert, storeSensorData.
  destruct (validateSensorReading r); cbn [negb].
  - destruct (checkForAlerts h sensors r) as [a |]; cbn [app In].
    + split; [| split].
      * intros alert. split.
        -- intros [[= <-] | [H | [H | [H | [H | [H | []]]]]]];
             try discriminate H. auto.
        -- intros [_ [= <-]]. auto.
      * intros alert. split.
        -- intros [H | [H | [H | [[= <-] | [H | [H | []]]]]]];
             try discriminate H. auto.
        -- intros [[= <-] | [H | [H | [H | [H | [H | []]]]]]];
             try discriminate H. auto 10.
      * intros r'. split.
        -- intros [H | [H | [H | [H | [H | [[= <-] | []]]]]]];
             try discriminate H. auto.
        -- intros [_ ->]. auto 10.
    + split; [| split].
      * intros alert. split.
        -- intros [H | [H | []]]; discriminate H.
        -- intros [_ H]. discriminate H.
      * intros alert. split; intros [H | [H | []]]; discriminate H.
      * intros r'. split.
        -- intros [H | [[= <-] | []]]; [discriminate H | auto].
        -- intros [_ ->]. auto.
  - cbn [In]. split; [| split].
    + intros alert. split.
      * intros [H | []]. discriminate H.
      * intros [H _]. discriminate H.
    + intros alert. split; intros [H | []]; discriminate H.
    + intros r'. split.
      * intros [H | []]. discriminate H.
      * intros [H _]. discriminate H.
Qed.

End Registry.

(** ** The connection of the collector *)

Module Reconnection.

Import SensorDataCollector.

Lemma delays_app (out out' : list Lifecycle) :
  delays (out ++ out') = (delays out ++ delays out')%list.
Proof. apply omap_app. Qed.

Lemma handleAll_cons (c : Connection) (e : ClientEvent) (es : list ClientEvent) :
  handleAll c (e :: es)
  = (fst (handleAll (fst (handle c e)) es),
     (snd (handle c e) ++ snd (handleAll (fst (handle c e)) es))%list).
Proof.
  cbn [handleAll]. destruct (handle c e) as [c' out]. cbn [fst snd].
  destruct (handleAll c' es) as [c'' out']. reflexivity.
Qed.

Lemma handleReconnection_spec (c : Connection) :
  (reconnectAttempts c < maxReconnectAttempts c)%nat ->
  reconnectAttempts (fst (handleReconnection c)) = S (reconnectAttempts c)
  /\ delays (snd (handleReconnection c)) = [5000 * Z.of_nat (S (reconnectAttempts c))].
Proof.
  intros Hlt. unfold handleReconnection.
  destruct (Nat.ltb_spec (reconnectAttempts c) (maxReconnectAttempts c)); [| lia].
  split; reflexivity.
Qed.

Lemma handleReconnection_exhausted (c : Connection) :
  (maxReconnectAttempts c <= reconnectAttempts c)%nat ->
  handleReconnection c
  = (c, [Logged "error"
           "Max reconnection attempts reached. MQTT client will not reconnect."]).
Proof.
  intros Hge. unfold handleReconnection.
  destruct (Nat.ltb_spec (reconnectAttempts c) (maxReconnectAttempts c)); [lia |].
  reflexivity.
Qed.

Lemma handle_max (c : Connection) (e : ClientEvent) :
  maxReconnectAttempts (fst (handle c e)) = maxReconnectAttempts c.
Proof.
  destruct e; cbn [handle]; try reflexivity.
  unfold onClose, handleReconnection. cbn [reconnectAttempts maxReconnectAttempts].
  destruct (Nat.ltb _ _); reflexivity.
Qed.

(** What one event does to the counter and which delay it schedules. *)
Lemma handle_closed (c : Connection) :
  (reconnectAttempts c < maxReconnectAttempts c)%nat ->
  reconnectAttempts (fst (handle c Closed)) = S (reconnectAttempts c)
  /\ delays (snd (handle c Closed)) = [5000 * Z.of_nat (S (reconnectAttempts c))]
  /\ isConnected (fst (handle c Closed)) = false.
Proof.
  intros Hlt. cbn [handle]. unfold onClose, handleReconnection.
  cbn [reconnectAttempts maxReconnectAttempts].
  destruct (Nat.ltb_spec (reconnectAttempts c) (maxReconnectAttempts c)); [| lia].
  repeat split.
Qed.

Lemma handle_closed_exhausted (c : Connection) :
  (maxReconnectAttempts c <= reconnectAttempts c)%nat ->
  reconnectAttempts (fst (handle c Closed)) = reconnectAttempts c
  /\ delays (snd (handle c Closed)) = []
  /\ isConnected (fst (handle c Closed)) = false.
Proof.
  intros Hge. cbn [handle]. unfold onClose, handleReconnection.
  cbn [reconnectAttempts maxReconnectAttempts].
  destruct (Nat.ltb_spec (reconnectAttempts c) (maxReconnectAttempts c)); [lia |].
  repeat split.
Qed.

Lemma handle_other (c : Connection) (e : ClientEvent) :
  e = Errored \/ e = ReconnectTimer ->
  reconnectAttempts (fst (handle c e)) = reconnectAttempts c
  /\ delays (snd (handle c e)) = [].
Proof. intros [-> | ->]; split; reflexivity. Qed.

Lemma handle_connected (c : Connection) :
  reconnectAttempts (fst (handle c Connected)) = 0%nat
  /\ delays (snd (handle c Connected)) = []
  /\ isConnected (fst (handle c Connected)) = true.
Proof.
  cbn [handle]. unfold onConnect, subscribeToSensorTopics.
  cbn [fst snd reconnectAttempts isConnected mqttClient].
  repeat split. destruct (mqttClient c); reflexivity.
Qed.

(** X17: whatever the broker's client reports, the collector never counts
    more reconnection attempts than [maxReconnectAttempts], which does not
    change, and every reconnection it schedules is delayed by a multiple of
    5000 ms between 5000 and [5000 * maxReconnectAttempts]. *)
Theorem reconnection_attempts_are_bounded (c : Connection) (es : list ClientEvent) :
  (reconnectAttempts c <= maxReconnectAttempts c)%nat ->
  (reconnectAttempts (fst (handleAll c es)) <= maxReconnectAttempts c)%nat
  /\ maxReconnectAttempts (fst (handleAll c es)) = maxReconnectAttempts c
  /\ Forall (fun d => exists k : nat,
                        (1 <= k <= maxReconnectAttempts c)%nat
                        /\ d = 5000 * Z.of_nat k)
       (delays (snd (handleAll c es))).
Proof.
  revert c. induction es as [| e es IH]; intros c Hle.
  - cbn. split; [exact Hle |]. split; [reflexivity | constructor].
  - rewrite handleAll_cons. cbn [fst snd]. rewrite delays_app.
    assert (Hstep : (reconnectAttempts (fst (handle c e)) <= maxReconnectAttempts c)%nat
                    /\ Forall (fun d => exists k : nat,
                                          (1 <= k <= maxReconnectAttempts c)%nat
                                          /\ d = 5000 * Z.of_nat k)
                         (delays (snd (handle c e)))).
    { destruct e.
      - destruct (handle_connected c) as (-> & -> & _). split; [lia | constructor].
      - destruct (handle_other c Errored) as (-> & ->); [auto |].
        split; [exact Hle | constructor].
      - destruct (Nat.lt_ge_cases (reconnectAttempts c) (maxReconnectAttempts c))
          as [Hlt | Hge].
        + destruct (handle_closed c Hlt) as (-> & -> & _). split; [lia |].
          constructor; [| constructor].
          exists (S (reconnectAttempts c)). split; [lia | reflexivity].
        + destruct (handle_closed_exhausted c Hge) as (-> & -> & _).
          split; [exact Hle | constructor].
      - destruct (handle_other c ReconnectTimer) as (-> & ->); [auto |].
        split; [exact Hle | constructor]. }
    destruct Hstep as (Hle' & Hd).
    pose proof (handle_max c e) as Hmax.
    destruct (IH (fst (handle c e))) as (Ha & Hm & Hds); [lia |].
    rewrite Hmax in Ha, Hm, Hds.
    split; [exact Ha |]. split; [exact Hm |].
    apply Forall_app. split; assumption.
Qed.

Lemma reconnection_attempts_are_bounded_witness :
  (reconnectAttempts
     (fst (handleAll disconnected
             [ReconnectTimer; Connected; Closed; Closed; Closed; Closed; Closed;
              Closed; Closed])) <= 5)%nat.
Proof.
  apply (reconnection_attempts_are_bounded disconnected
           [ReconnectTimer; Connected; Closed; Closed; Closed; Closed; Closed;
            Closed; Closed]).
  cbn. lia.
Defined.

(** X18: as long as no connection succeeds, the closes are answered by
    reconnections after 5000 ms times the number of the attempt, until the
    attempts are used up; further closes schedule nothing.  After a
    successful connection the count starts again at 5000 ms. *)
Theorem closes_back_off_linearly (c : Connection) (es : list ClientEvent) :
  (reconnectAttempts c <= maxReconnectAttempts c)%nat ->
  Forall (fun e => e <> Connected) es ->
  let closes := length (List.filter isClosed es) in
  let left := (maxReconnectAttempts c - reconnectAttempts c)%nat in
  delays (snd (handleAll c es))
  = map (fun k => 5000 * Z.of_nat k)
      (seq (S (reconnectAttempts c)) (Nat.min closes left))
  /\ reconnectAttempts (fst (handleAll c es))
     = (reconnectAttempts c + Nat.min closes left)%nat
  /\ reconnectAttempts (fst (handle c Connected)) = 0%nat.
Proof.
  intros Hle Hes. cbn zeta.
  split; [| split; [| apply handle_connected]].
  - revert c Hle. induction Hes as [| e es He _ IH]; intros c Hle.
    + reflexivity.
    + rewrite handleAll_cons. cbn [snd]. rewrite delays_app.
      pose proof (handle_max c e) as Hmax.
      destruct e; [congruence | | |]; cbn [List.filter isClosed].
      * destruct (handle_other c Errored) as (Ha & ->); [auto |].
        rewrite IH by (rewrite Ha, Hmax; exact Hle). rewrite Ha, Hmax. reflexivity.
      * destruct (Nat.lt_ge_cases (reconnectAttempts c) (maxReconnectAttempts c))
          as [Hlt | Hge].
        -- destruct (handle_closed c Hlt) as (Ha & -> & _).
           rewrite IH by (rewrite Ha, Hmax; lia). rewrite Ha, Hmax. cbn [length].
           replace (Nat.min (S (length (List.filter isClosed es)))
                      (maxReconnectAttempts c - reconnectAttempts c))
             with (S (Nat.min (length (List.filter isClosed es))
                        (maxReconnectAttempts c - S (reconnectAttempts c))))
             by lia.
           reflexivity.
        -- destruct (handle_closed_exhausted c Hge) as (Ha & -> & _).
           rewrite IH by (rewrite Ha, Hmax; exact Hle). rewrite Ha, Hmax. cbn [length].
           replace (maxReconnectAttempts c - reconnectAttempts c)%nat with 0%nat by lia.
           rewrite !Nat.min_0_r. reflexivity.
      * destruct (handle_other c ReconnectTimer) as (Ha & ->); [auto |].
        rewrite IH by (rewrite Ha, Hmax; exact Hle). rewrite Ha, Hmax. reflexivity.
  - revert c Hle. induction Hes as [| e es He _ IH]; intros c Hle.
    + cbn. lia.
    + rewrite handleAll_cons. cbn [fst].
      pose proof (handle_max c e) as Hmax.
      destruct e; [congruence | | |]; cbn [List.filter isClosed].
      * destruct (handle_other c Errored) as (Ha & _); [auto |].
        rewrite IH by (rewrite Ha, Hmax; exact Hle). rewrite Ha, Hmax. reflexivity.
      * destruct (Nat.lt_ge_cases (reconnectAttempts c) (maxReconnectAttempts c))
          as [Hlt | Hge].
        -- destruct (handle_closed c Hlt) as (Ha & _).
           rewrite IH by (rewrite Ha, Hmax; lia). rewrite Ha, Hmax. cbn [length]. lia.
        -- destruct (handle_closed_exhausted c Hge) as (Ha & _).
           rewrite IH by (rewrite Ha, Hmax; exact Hle). rewrite Ha, Hmax.
           cbn [length]. lia.
      * destruct (handle_other c ReconnectTimer) as (Ha & _); [auto |].
        rewrite IH by (rewrite Ha, Hmax; exact Hle). rewrite Ha, Hmax. reflexivity.
Qed.

Lemma closes_back_off_linearly_witness :
  delays (snd (handleAll (fst (onConnect (connect disconnected)))
                 [Closed; ReconnectTimer; Closed; ReconnectTimer; Errored; Closed;
                  Closed; Closed; Closed; Closed]))
  = [5000; 10000; 15000; 20000; 25000].
Proof.
  destruct (closes_back_off_linearly (fst (onConnect (connect disconnected)))
              [Closed; ReconnectTimer; Closed; ReconnectTimer; Errored; Closed;
               Closed; Closed; Closed; Closed]) as (Hd & _).
  - cbn. lia.
  - repeat constructor; discriminate.
  - rewrite Hd. reflexivity.
Defined.

End Reconnection.

(** ** What reaches the module *)

Module Wiring.

Import DataProcessor.





End Wiring.

(** ** Coordinates *)

Module Coordinates.

Import DataProcessor.

(** X22: on a location reading, [SensorDataValidator.validateSensorReading]
    checks the coordinates exactly as [validateLocation] does, with the same
    reasons, whereas the processor and the collector check no range at all:
    they accept any pair of numbers as coordinates. *)
Theorem location_ranges_agree (h : Host) (r : SensorReading) (lat lon : float) :
  SensorDataValidator.validateSensorReading h r = SensorDataValidator.valid ->
  isType r "location" = true ->
  let r' := withValue (VObj [("latitude", VNum lat); ("longitude", VNum lon)]) r in
  SensorDataValidator.validateSensorReading h r'
  = SensorDataValidator.validateLocation
      {| latitude := lat; longitude := lon; accuracy := None |}
  /\ validateReading r' = inr tt
  /\ SensorDataCollector.validateSensorReading r' = true.
Proof.
  intros H Hloc r'.
  destruct (Validators.validator_accepted_inv h r H) as (Hid & Hsty & _ & Hts & Hparse).
  pose proof (Validators.isType_other r "location" "temperature" Hloc) as T1.
  pose proof (Validators.isType_other r "location" "humidity" Hloc) as T2.
  pose proof (Validators.isType_other r "location" "pressure" Hloc) as T3.
  pose proof (Validators.isType_other r "location" "light" Hloc) as T4.
  pose proof (Validators.isType_other r "location" "vibration" Hloc) as T5.
  subst r'. split; [| split].
  - unfold SensorDataValidator.validateSensorReading, SensorDataValidator.missing,
      SensorDataValidator.isType, SensorDataValidator.isNumber,
      SensorDataValidator.isObject, SensorDataValidator.validateLocation.
    change (isType (withValue ?v r)) with (isType r).
    cbn [sensorId sensorType timestamp value withValue latitude longitude accuracy].
    rewrite Hid, Hsty, Hts, Hparse, T1, T2, T3, T4, T5, Hloc by discriminate.
    reflexivity.
  - unfold validateReading.
    change (isType (withValue ?v r)) with (isType r).
    cbn [sensorId sensorType timestamp value withValue].
    rewrite Hid, Hsty, Hts, T1, T2, T3, Hloc by discriminate. reflexivity.
  - unfold SensorDataCollector.validateSensorReading,
      SensorDataCollector.requiredFields, SensorDataCollector.isType.
    change (isType (withValue ?v r)) with (isType r).
    cbn [forallb sensorId sensorType timestamp value withValue truthy].
    rewrite (Validators.not_missing_present _ Hid),
      (Validators.not_missing_present _ Hsty), Hts, T1, T2, T3, T4, T5, Hloc
      by discriminate.
    reflexivity.
Qed.

Lemma location_ranges_agree_witness :
  let r := Examples.mkReading "GPS001" "location"
             (VObj [("latitude", VNum 40.7128); ("longitude", VNum (-74.006))])
             "2026-11-02T12:00:00.000Z" None in
  let r' := withValue (VObj [("latitude", VNum 500); ("longitude", VNum 0)]) r in
  SensorDataValidator.validateSensorReading Iso8601.host r'
  = SensorDataValidator.invalid "Invalid latitude (must be between -90 and 90)"
  /\ validateReading r' = inr tt.
Proof.
  intros r r'.
  destruct (location_ranges_agree Iso8601.host r 500 0) as (Hv & Hp & _);
    [vm_compute; reflexivity | reflexivity |].
  split; [etransitivity; [exact Hv | reflexivity] | exact Hp].
Defined.

End Coordinates.
